(** * windpowerlib: the turbine-cluster model chain

    A shallow embedding of [windpowerlib/turbine_cluster_modelchain.py]
    (class [TurbineClusterModelChain]) and the properties of its two methods
    [assign_power_curve] and [run_model].

    The class is a thin coordinator: it reads its own attributes, calls the
    power plant, the inherited single-turbine chain and
    [wake_losses.reduce_wind_speed], and stores one result.  The embedding
    therefore is a state-and-exception monad over a [World] that holds the
    model-chain object, the borrowed power-plant object and a record of the
    collaborator calls made so far. *)

From Stdlib Require Import List String Bool ZArith QArith Lia.
Import ListNotations.
Open Scope string_scope.
Open Scope list_scope.

(** ** Data the program handles but never inspects *)

(** The carriers the orchestrator only moves around: float64 samples
    ([num]), index entries of the weather frame ([timestamp]), the turbine
    inventory of the plant ([Fleet]), power curves, wind efficiency curves,
    and the exceptions collaborators raise on their own account. *)
Class Domain : Type := {
  num : Type;
  timestamp : Type;
  Fleet : Type;
  Curve : Type;
  EfficiencyCurve : Type;
  NativeError : Type
}.

Section DataModel.
Context `{D : Domain}.

(** A pandas Series: index entries paired with samples, in index order. *)
Definition Series : Type := list (timestamp * num).

Definition index (s : Series) : list timestamp := map fst s.
Definition values (s : Series) : list num := map snd s.

(** [weather_df]: a frame whose columns carry a two-level key
    (variable name, height) and whose rows are indexed by timestamp.  The
    cells of a row are listed in column order, as [DataFrame.values] has
    them. *)
Record WeatherSeries : Type := {
  columns : list (string * num);
  rows : list (timestamp * list num)
}.


(** [weather_df.columns.get_level_values(0)] *)
Definition get_level_values_0 (w : WeatherSeries) : list string :=
  map fst (columns w).

(** [name in weather_df.columns.get_level_values(0)] *)
Definition has_variable (name : string) (w : WeatherSeries) : bool :=
  existsb (String.eqb name) (get_level_values_0 w).

(** The cells of one row that sit under the columns whose first level is
    [name]. *)
Definition select_cells (name : string) (keys : list (string * num))
    (cells : list num) : list num :=
  map snd (filter (fun kc => String.eqb name (fst (fst kc)))
                  (combine keys cells)).

(** [weather_df[name].values]: one list per timestamp, one cell per height. *)
Definition variable_values (name : string) (w : WeatherSeries)
    : list (list num) :=
  map (fun r => select_cells name (columns w) (snd r)) (rows w).

(** What a call can raise: the lookup failure of the wind efficiency curve
    catalogue, or whatever a collaborator raises by itself. *)
Inductive error : Type :=
| NameNotFound (curve_name : string)
| Native (e : NativeError).

Inductive result (A : Type) : Type :=
| Ok (a : A)
| Raise (e : error).

(** The keyword arguments of [power_plant.assign_power_curve], in the order
    of the call at lines 204-209.  [smoothing] is kept as a Python value
    that may be [None], because line 211 tests [self.smoothing is None]. *)
Record AggregatorArgs : Type := {
  arg_wake_losses_model : option string;
  arg_smoothing : option bool;
  arg_block_width : num;
  arg_standard_deviation_method : string;
  arg_smoothing_order : string;
  arg_turbulence_intensity : option num
}.

(** The attributes set at construction: the five of this class (lines
    146-150) and the ones the base class [ModelChain] keeps. *)
Record ModelChainConfig : Type := {
  wake_losses_model : option string;
  smoothing : option bool;
  block_width : num;
  standard_deviation_method : string;
  smoothing_order : string;
  wind_speed_model : string;
  temperature_model : string;
  density_model : string;
  power_output_model : string;
  density_correction : bool;
  obstacle_height : num;
  hellman_exp : option num
}.

(** Modelled from the spec: the keyword arguments [**kwargs] that line 143
    hands to [ModelChain.__init__] ([modelchain.py] is not among the
    sources): the "inherited single-turbine configuration (wind_speed_model,
    temperature_model, density_model, power_output_model,
    density_correction, obstacle_height, hellman_exp)". *)
Record ModelChainOptions : Type := {
  opt_wind_speed_model : string;
  opt_temperature_model : string;
  opt_density_model : string;
  opt_power_output_model : string;
  opt_density_correction : bool;
  opt_obstacle_height : num;
  opt_hellman_exp : option num
}.

(** The model-chain object: its configuration and the two result
    attributes initialised at lines 152-153. *)
Record TurbineClusterModelChain : Type := {
  config : ModelChainConfig;
  power_curve : option Curve;
  power_output : option Series
}.

(** Modelled from the spec: the power plant entity ([wind_farm.py] and
    [wind_turbine_cluster.py] are not among the sources).  It "owns turbine
    inventory, geographic/layout metadata, and the current PowerCurve", and
    [mean_hub_height] "mutates plant's stored mean hub height". *)
Record PowerPlant : Type := {
  turbines : Fleet;
  plant_power_curve : option Curve;
  hub_height : option num
}.

(** One entry per call that leaves the orchestrator. *)
Inductive Call : Type :=
| Call_assign_power_curve (args : AggregatorArgs)
| Call_mean_hub_height
| Call_wind_speed_hub (weather : WeatherSeries)
| Call_density_hub (weather : WeatherSeries)
| Call_reduce_wind_speed (wind_speed : Series) (curve_name : string)
| Call_calculate_power_output (wind_speed : Series) (density : option Series).

(** Everything a method can read or change: [self], the plant [self]
    refers to, the collaborator calls so far (oldest first) and the
    messages given to [logging.debug]. *)
Record World : Type := {
  self : TurbineClusterModelChain;
  plant : PowerPlant;
  calls : list Call;
  debug_log : list string
}.

End DataModel.

Arguments Ok {D A} a.
Arguments Raise {D A} e.

(** ** Collaborators *)

(** The code outside this file that the two methods call.  Each is a pure
    function that may fail; the mutation of the plant is written out in
    [plant_assign_power_curve] and [plant_mean_hub_height] below. *)
Class Collaborators `{D : Domain} : Type := {
  (* numpy: [ndarray.mean()] of a two-dimensional array *)
  np_mean : list (list num) -> num;
  (* float arithmetic and comparison *)
  num_zero : num;
  num_mul : num -> num -> num;
  num_leb : num -> num -> bool;
  (* the catalogue of wind efficiency curves, by name *)
  get_wind_efficiency_curve : string -> option EfficiencyCurve;
  (* efficiency of a curve at a wind speed *)
  efficiency_at : EfficiencyCurve -> num -> num;
  (* the aggregation of the member turbines' curves *)
  aggregate : AggregatorArgs -> Fleet -> result Curve;
  (* the mean hub height of the layout *)
  layout_mean_hub_height : Fleet -> result num;
  (* inherited from ModelChain *)
  wind_speed_hub : ModelChainConfig -> PowerPlant -> WeatherSeries -> result Series;
  density_hub : ModelChainConfig -> PowerPlant -> WeatherSeries -> result Series;
  calculate_power_output :
    ModelChainConfig -> PowerPlant -> Series -> option Series -> result Series
}.

(** ** The methods *)

Section Methods.
Context `{C : Collaborators}.

(** A method body: it runs in a world, ends normally or with an exception,
    and leaves a world behind in both cases (Python keeps the mutations
    made before a [raise]). *)
Definition M (A : Type) : Type := World -> result A * World.

Definition ret {A : Type} (a : A) : M A := fun w => (Ok a, w).

Definition bind {A B : Type} (m : M A) (k : A -> M B) : M B :=
  fun w =>
    match m w with
    | (Ok a, w') => k a w'
    | (Raise e, w') => (Raise e, w')
    end.

Notation "x <- m ;; k" := (bind m (fun x => k))
  (at level 100, m at next level, right associativity).
Notation "m ;;; k" := (bind m (fun _ => k))
  (at level 100, right associativity).

(** A pure collaborator result enters the method as a value or a raise. *)
Definition lift {A : Type} (r : result A) : M A := fun w => (r, w).

Definition get_config : M ModelChainConfig :=
  fun w => (Ok (config (self w)), w).

Definition get_plant : M PowerPlant := fun w => (Ok (plant w), w).

Definition set_plant (p : PowerPlant) : M unit :=
  fun w =>
    (Ok tt, {| self := self w; plant := p;
               calls := calls w; debug_log := debug_log w |}).

Definition record_call (c : Call) : M unit :=
  fun w =>
    (Ok tt, {| self := self w; plant := plant w;
               calls := calls w ++ [c]; debug_log := debug_log w |}).

(** [logging.debug(msg)] *)
Definition logging_debug (msg : string) : M unit :=
  fun w =>
    (Ok tt, {| self := self w; plant := plant w;
               calls := calls w; debug_log := debug_log w ++ [msg] |}).

(** [self.power_output = series] *)
Definition set_power_output (series : Series) : M unit :=
  fun w =>
    (Ok tt, {| self := {| config := config (self w);
                          power_curve := power_curve (self w);
                          power_output := Some series |};
               plant := plant w;
               calls := calls w; debug_log := debug_log w |}).

(** Python's [x == 'literal'] and [x is None] for an attribute documented
    as [str or None]. *)
Definition py_eq (x : option string) (literal : string) : bool :=
  match x with
  | Some s => String.eqb s literal
  | None => false
  end.

Definition is_None {A : Type} (x : option A) : bool :=
  match x with
  | None => true
  | Some _ => false
  end.

(** What [str.format] and [+] see of a [str or None] value. *)
Definition py_str (x : option string) : string :=
  match x with
  | Some s => s
  | None => "None"
  end.

(** *** The collaborators as calls *)

(** Modelled from the spec: [power_plant.assign_power_curve] ([wind_farm.py]
    and [wind_turbine_cluster.py] are not among the sources), which
    "aggregates member turbines' curves" and replaces the plant's power
    curve "wholesale on each run". *)
Definition plant_assign_power_curve (args : AggregatorArgs) : M unit :=
  record_call (Call_assign_power_curve args) ;;;
  p <- get_plant ;;
  c <- lift (aggregate args (turbines p)) ;;
  set_plant {| turbines := turbines p;
               plant_power_curve := Some c;
               hub_height := hub_height p |}.

(** Modelled from the spec: [power_plant.mean_hub_height] (same missing
    files), which "mutates plant's stored mean hub height from turbine
    layout". *)
Definition plant_mean_hub_height : M unit :=
  record_call Call_mean_hub_height ;;;
  p <- get_plant ;;
  h <- lift (layout_mean_hub_height (turbines p)) ;;
  set_plant {| turbines := turbines p;
               plant_power_curve := plant_power_curve p;
               hub_height := Some h |}.

(** Modelled from the spec: the inherited resolvers of [ModelChain]
    ([modelchain.py] is not among the sources), "pure functions of
    weather/config, each may fail"; they read the plant [self] refers to. *)
Definition self_wind_speed_hub (weather_df : WeatherSeries) : M Series :=
  record_call (Call_wind_speed_hub weather_df) ;;;
  cfg <- get_config ;;
  p <- get_plant ;;
  lift (wind_speed_hub cfg p weather_df).

Definition self_density_hub (weather_df : WeatherSeries) : M Series :=
  record_call (Call_density_hub weather_df) ;;;
  cfg <- get_config ;;
  p <- get_plant ;;
  lift (density_hub cfg p weather_df).

Definition self_calculate_power_output (wind_speed : Series)
    (density : option Series) : M Series :=
  record_call (Call_calculate_power_output wind_speed density) ;;;
  cfg <- get_config ;;
  p <- get_plant ;;
  lift (calculate_power_output cfg p wind_speed density).

(** Modelled from the spec: the attenuation a named wind efficiency curve
    applies to a series ([wake_losses.py] is not among the sources): "each
    wind-speed sample is scaled down according to the curve's efficiency
    value at that speed". *)
Definition attenuate (curve : EfficiencyCurve) (wind_speed : Series) : Series :=
  map (fun s => (fst s, num_mul (snd s) (efficiency_at curve (snd s))))
      wind_speed.

(** Modelled from the spec: [wake_losses.reduce_wind_speed] (same missing
    file).  The "WindEfficiencyCurve lookup by name ... fails with
    NameNotFound if the name is unrecognized". *)
Definition reduce_wind_speed (wind_speed : Series)
    (wind_efficiency_curve_name : string) : result Series :=
  match get_wind_efficiency_curve wind_efficiency_curve_name with
  | Some curve => Ok (attenuate curve wind_speed)
  | None => Raise (NameNotFound wind_efficiency_curve_name)
  end.

Definition wake_losses_reduce_wind_speed (wind_speed : Series)
    (wind_efficiency_curve_name : string) : M Series :=
  record_call (Call_reduce_wind_speed wind_speed wind_efficiency_curve_name) ;;;
  lift (reduce_wind_speed wind_speed wind_efficiency_curve_name).

(** *** [TurbineClusterModelChain] *)

(** Lines 139-153.  Python's default values of the keyword arguments are
    the caller's business here: every argument is explicit.  The base
    class stores [kwargs]; no call has been made yet. *)
Definition __init__ (power_plant : PowerPlant)
    (wake_losses_model : option string) (smoothing : option bool)
    (block_width : num) (standard_deviation_method : string)
    (smoothing_order : string) (kwargs : ModelChainOptions) : World :=
  {| self :=
       {| config :=
            {| wake_losses_model := wake_losses_model;
               smoothing := smoothing;
               block_width := block_width;
               standard_deviation_method := standard_deviation_method;
               smoothing_order := smoothing_order;
               wind_speed_model := opt_wind_speed_model kwargs;
               temperature_model := opt_temperature_model kwargs;
               density_model := opt_density_model kwargs;
               power_output_model := opt_power_output_model kwargs;
               density_correction := opt_density_correction kwargs;
               obstacle_height := opt_obstacle_height kwargs;
               hellman_exp := opt_hellman_exp kwargs |};
          power_curve := None;
          power_output := None |};
     plant := power_plant;
     calls := [];
     debug_log := [] |}.

(** Lines 186-189: the mean over every cell under [turbulence_intensity],
    all heights and all timestamps, or [None] without such a column. *)
Definition turbulence_intensity_of (weather_df : WeatherSeries) : option num :=
  if has_variable "turbulence_intensity" weather_df
  then Some (np_mean (variable_values "turbulence_intensity" weather_df))
  else None.

(** Lines 191-203: which wake-loss mode goes to the aggregator. *)
Definition choose_wake_losses_model : M (option string) :=
  cfg <- get_config ;;
  if py_eq (wake_losses_model cfg) "power_efficiency_curve"
     || py_eq (wake_losses_model cfg) "constant_efficiency"
     || is_None (wake_losses_model cfg)
  then
    (if is_None (wake_losses_model cfg)
     then logging_debug "Wake losses in wind farms are not considered."
     else logging_debug ("Wake losses considered with "
                         ++ py_str (wake_losses_model cfg) ++ ".")) ;;;
    ret (wake_losses_model cfg)
  else
    logging_debug (("Wake losses considered by "
                    ++ py_str (wake_losses_model cfg) ++ " wind ")
                   ++ "efficiency curve.") ;;;
    ret None.

(** Lines 155-217.  The method returns [self]; the object is the world's,
    so the value returned here is [tt]. *)
Definition assign_power_curve (weather_df : WeatherSeries) : M unit :=
  let turbulence_intensity := turbulence_intensity_of weather_df in
  wake_losses_model_to_power_curve <- choose_wake_losses_model ;;
  cfg <- get_config ;;
  plant_assign_power_curve
    {| arg_wake_losses_model := wake_losses_model_to_power_curve;
       arg_smoothing := smoothing cfg;
       arg_block_width := block_width cfg;
       arg_standard_deviation_method := standard_deviation_method cfg;
       arg_smoothing_order := smoothing_order cfg;
       arg_turbulence_intensity := turbulence_intensity |} ;;;
  if is_None (smoothing cfg)
  then logging_debug "Aggregated power curve not smoothed."
  else logging_debug ("Aggregated power curve smoothed by method: "
                      ++ standard_deviation_method cfg).

(** Lines 219-278. *)
Definition run_model (weather_df : WeatherSeries) : M unit :=
  assign_power_curve weather_df ;;;
  plant_mean_hub_height ;;;
  wind_speed_hub <- self_wind_speed_hub weather_df ;;
  cfg <- get_config ;;
  density_hub <-
    (if String.eqb (power_output_model cfg) "power_curve"
        && negb (density_correction cfg)
     then ret None
     else (d <- self_density_hub weather_df ;; ret (Some d))) ;;
  wind_speed_hub <-
    (if negb (py_eq (wake_losses_model cfg) "power_efficiency_curve")
        && negb (py_eq (wake_losses_model cfg) "constant_efficiency")
        && negb (is_None (wake_losses_model cfg))
     then (* [self.wake_losses_model] is a [str] here: third conjunct *)
          wake_losses_reduce_wind_speed wind_speed_hub
            (py_str (wake_losses_model cfg))
     else ret wind_speed_hub) ;;
  power_output <- self_calculate_power_output wind_speed_hub density_hub ;;
  set_power_output power_output.

End Methods.

(** ** What an observer of the methods can see *)

Section Observations.
Context `{C : Collaborators}.

(** The collaborator calls made between two worlds. *)
Definition new_calls (before after : World) : list Call :=
  skipn (List.length (calls before)) (calls after).


Definition post_hoc_path (mode : option string) (name : string) : Prop :=
  mode = Some name /\ name <> "power_efficiency_curve"
  /\ name <> "constant_efficiency".


(** The value of the local [wake_losses_model_to_power_curve] when line
    204 is reached. *)
Definition wake_losses_model_to_power_curve (cfg : ModelChainConfig)
    : option string :=
  if py_eq (wake_losses_model cfg) "power_efficiency_curve"
     || py_eq (wake_losses_model cfg) "constant_efficiency"
     || is_None (wake_losses_model cfg)
  then wake_losses_model cfg
  else None.

(** The keyword arguments of the call at lines 204-209. *)
Definition aggregator_args (cfg : ModelChainConfig)
    (weather_df : WeatherSeries) : AggregatorArgs :=
  {| arg_wake_losses_model := wake_losses_model_to_power_curve cfg;
     arg_smoothing := smoothing cfg;
     arg_block_width := block_width cfg;
     arg_standard_deviation_method := standard_deviation_method cfg;
     arg_smoothing_order := smoothing_order cfg;
     arg_turbulence_intensity := turbulence_intensity_of weather_df |}.

(** Line 266-267: the test that skips the density resolver. *)
Definition density_skipped (cfg : ModelChainConfig) : bool :=
  String.eqb (power_output_model cfg) "power_curve"
  && negb (density_correction cfg).

(** Line 269-271: the test that sends the wind speed through
    [reduce_wind_speed]. *)
Definition wind_speed_reduced (cfg : ModelChainConfig) : bool :=
  negb (py_eq (wake_losses_model cfg) "power_efficiency_curve")
  && negb (py_eq (wake_losses_model cfg) "constant_efficiency")
  && negb (is_None (wake_losses_model cfg)).

(** One run of [run_model] seen from outside: the power output or the
    exception that ended the run, the plant it leaves, and the collaborator
    calls it made, oldest first. *)
Record Trace : Type := {
  trace_result : result Series;
  trace_plant : PowerPlant;
  trace_calls : list Call
}.

(** Line 266-268 in direct style: the density argument and the call made
    for it, if any. *)
Definition density_stage (cfg : ModelChainConfig) (p : PowerPlant)
    (weather_df : WeatherSeries) : result (option Series) * list Call :=
  if density_skipped cfg
  then (Ok None, [])
  else (match density_hub cfg p weather_df with
        | Ok d => Ok (Some d)
        | Raise e => Raise e
        end, [Call_density_hub weather_df]).

(** Line 269-275 in direct style. *)
Definition wake_stage (cfg : ModelChainConfig) (ws : Series)
    : result Series * list Call :=
  if wind_speed_reduced cfg
  then (reduce_wind_speed ws (py_str (wake_losses_model cfg)),
        [Call_reduce_wind_speed ws (py_str (wake_losses_model cfg))])
  else (Ok ws, []).

(** [run_model] in direct style, every exit written out.  The lemma
    [run_model_outcome] below shows that the method does exactly this. *)
Definition run_trace (cfg : ModelChainConfig) (p0 : PowerPlant)
    (weather_df : WeatherSeries) : Trace :=
  let args := aggregator_args cfg weather_df in
  match aggregate args (turbines p0) with
  | Raise e =>
      {| trace_result := Raise e; trace_plant := p0;
         trace_calls := [Call_assign_power_curve args] |}
  | Ok c =>
      match layout_mean_hub_height (turbines p0) with
      | Raise e =>
          {| trace_result := Raise e;
             trace_plant := {| turbines := turbines p0;
                               plant_power_curve := Some c;
                               hub_height := hub_height p0 |};
             trace_calls := [Call_assign_power_curve args;
                             Call_mean_hub_height] |}
      | Ok h =>
          let p := {| turbines := turbines p0;
                      plant_power_curve := Some c;
                      hub_height := Some h |} in
          let first := [Call_assign_power_curve args; Call_mean_hub_height;
                        Call_wind_speed_hub weather_df] in
          match wind_speed_hub cfg p weather_df with
          | Raise e =>
              {| trace_result := Raise e; trace_plant := p;
                 trace_calls := first |}
          | Ok ws =>
              match density_stage cfg p weather_df with
              | (Raise e, cd) =>
                  {| trace_result := Raise e; trace_plant := p;
                     trace_calls := first ++ cd |}
              | (Ok d, cd) =>
                  match wake_stage cfg ws with
                  | (Raise e, cw) =>
                      {| trace_result := Raise e; trace_plant := p;
                         trace_calls := first ++ cd ++ cw |}
                  | (Ok ws', cw) =>
                      {| trace_result := calculate_power_output cfg p ws' d;
                         trace_plant := p;
                         trace_calls :=
                           first ++ cd ++ cw
                           ++ [Call_calculate_power_output ws' d] |}
                  end
              end
          end
      end
  end.

(** The world a run leaves: [power_output] is assigned only when the run
    ends normally. *)
Definition world_after (w : World) (t : Trace) (msgs : list string) : World :=
  {| self := match trace_result t with
             | Ok out => {| config := config (self w);
                            power_curve := power_curve (self w);
                            power_output := Some out |}
             | Raise _ => self w
             end;
     plant := trace_plant t;
     calls := calls w ++ trace_calls t;
     debug_log := msgs |}.

Definition returned {A : Type} (r : result A) : result unit :=
  match r with
  | Ok _ => Ok tt
  | Raise e => Raise e
  end.

(** A relation between the world before and after: a method body
    respects it when every run of the body does, raising or not. *)
Definition respects {A : Type} (R : World -> World -> Prop) (m : M A) : Prop :=
  forall w, R w (snd (m w)).

(** The configuration and the [power_curve] attribute of [self]. *)
Definition same_settings (w w' : World) : Prop :=
  config (self w') = config (self w)
  /\ power_curve (self w') = power_curve (self w).

(** A caller's use of the object after construction: any sequence of the
    two public methods, exceptions caught or not. *)
Inductive MethodCall : Type :=
| Method_assign_power_curve (weather_df : WeatherSeries)
| Method_run_model (weather_df : WeatherSeries).

Definition invoke (w : World) (c : MethodCall) : World :=
  match c with
  | Method_assign_power_curve weather_df => snd (assign_power_curve weather_df w)
  | Method_run_model weather_df => snd (run_model weather_df w)
  end.

Definition after (w : World) (history : list MethodCall) : World :=
  fold_left invoke history w.

(** The plant once line 263 has stored the aggregated curve [c] and line
    264 the mean hub height [h]. *)
Definition updated_plant (p0 : PowerPlant) (c : Curve) (h : num) : PowerPlant :=
  {| turbines := turbines p0;
     plant_power_curve := Some c;
     hub_height := Some h |}.

(** Lines 263-265 have returned: the aggregation, called with the
    arguments of line 204-209, gave [c]; the layout gave the mean hub
    height [h]; [wind_speed_hub], on the plant holding both, gave [hub]. *)
Definition hub_resolved (w : World) (weather_df : WeatherSeries)
    (c : Curve) (h : num) (hub : Series) : Prop :=
  aggregate (aggregator_args (config (self w)) weather_df)
            (turbines (plant w)) = Ok c
  /\ layout_mean_hub_height (turbines (plant w)) = Ok h
  /\ wind_speed_hub (config (self w)) (updated_plant (plant w) c h) weather_df
     = Ok hub.

(** Line 266-268 has returned with the value [density]. *)
Definition density_resolved (cfg : ModelChainConfig) (p : PowerPlant)
    (weather_df : WeatherSeries) (density : option Series) : Prop :=
  if density_skipped cfg
  then density = None
  else exists d, density_hub cfg p weather_df = Ok d /\ density = Some d.

(** Line 269-275 has returned with the value [speed]. *)
Definition wake_resolved (cfg : ModelChainConfig) (hub speed : Series) : Prop :=
  if wind_speed_reduced cfg
  then reduce_wind_speed hub (py_str (wake_losses_model cfg)) = Ok speed
  else speed = hub.

(** The calls a run has made when line 265 has returned and the density
    test of line 266-267 is decided. *)
Definition calls_until_density (cfg : ModelChainConfig)
    (weather_df : WeatherSeries) : list Call :=
  [Call_assign_power_curve (aggregator_args cfg weather_df);
   Call_mean_hub_height;
   Call_wind_speed_hub weather_df]
  ++ (if density_skipped cfg then [] else [Call_density_hub weather_df]).

End Observations.

(** ** Construction with the default arguments *)

Section Defaults.
Context `{D : Domain}.

(** A keyword argument of a call: given by the caller, or left out. *)
Definition keyword {A : Type} (given : option A) (default : A) : A :=
  match given with
  | Some a => a
  | None => default
  end.

(** What a decimal literal of the source denotes as a float. *)
Class Literals : Type := {
  float_literal : Q -> num
}.

(** The call [TurbineClusterModelChain(power_plant, ...)] with the defaults
    of lines 139-142 filled in for the keyword arguments left out.
    [Some None] is an explicit [wake_losses_model=None]. *)
Definition construct `{L : Literals} (power_plant : PowerPlant)
    (wake_losses_model : option (option string))
    (smoothing : option (option bool)) (block_width : option num)
    (standard_deviation_method smoothing_order : option string)
    (kwargs : ModelChainOptions) : World :=
  __init__ power_plant
    (keyword wake_losses_model (Some "dena_mean"))
    (keyword smoothing (Some false))
    (keyword block_width (float_literal (5 # 10)))
    (keyword standard_deviation_method "turbulence_intensity")
    (keyword smoothing_order "wind_farm_power_curves")
    kwargs.

End Defaults.

(** ** A small plant to run the methods on *)

(** Rational samples, hourly timestamps counted from zero, a fleet given by
    its hub height and one power curve in whole watts, and one catalogued
    wind efficiency curve.  Curves are step functions: the entry with the
    largest wind speed not above the sample decides. *)
Module Example.

Definition domain : Domain :=
  {| num := Q;
     timestamp := nat;
     Fleet := Q * list (Q * N);
     Curve := list (Q * N);
     EfficiencyCurve := list (Q * Q);
     NativeError := string |}.

Fixpoint step_lookup {A : Type} (default : A) (curve : list (Q * A)) (v : Q) : A :=
  match curve with
  | [] => default
  | (speed, a) :: rest =>
      if Qle_bool speed v then step_lookup a rest v else default
  end.

Definition mean (cells : list (list Q)) : Q :=
  let flat := List.concat cells in
  Qred (fold_right Qplus 0%Q flat / inject_Z (Z.of_nat (List.length flat))).

Definition dena_mean : list (Q * Q) :=
  [(0%Q, 1%Q); (4%Q, 9 # 10); (8%Q, 3 # 4); (12%Q, 9 # 10)].

Definition catalogue (name : string) : option (list (Q * Q)) :=
  if String.eqb name "dena_mean" then Some dena_mean else None.

Definition scale_watts (percent : N) (curve : list (Q * N)) : list (Q * N) :=
  map (fun point => (fst point, (snd point * percent / 100)%N)) curve.

Definition aggregate_fleet (args : @AggregatorArgs domain)
    (fleet : Q * list (Q * N)) : @result domain (list (Q * N)) :=
  match arg_smoothing args, arg_turbulence_intensity args with
  | Some true, None =>
      if String.eqb (arg_standard_deviation_method args) "turbulence_intensity"
      then Raise (Native (D := domain) "ValueError: turbulence intensity")
      else Ok (snd fleet)
  | _, _ =>
      match arg_wake_losses_model args with
      | None => Ok (snd fleet)
      | Some _ => Ok (scale_watts 90 (snd fleet))
      end
  end.

Definition last_cell (name : string) (w : @WeatherSeries domain)
    (row : nat * list Q) : nat * Q :=
  (fst row, last (select_cells (D := domain) name (columns w) (snd row)) 0%Q).

Definition hub_wind_speed (cfg : @ModelChainConfig domain)
    (p : @PowerPlant domain) (w : @WeatherSeries domain)
    : @result domain (list (nat * Q)) :=
  if has_variable (D := domain) "wind_speed" w
  then match hub_height p with
       | Some _ => Ok (map (last_cell "wind_speed" w) (rows w))
       | None => Raise (Native (D := domain) "TypeError: hub_height")
       end
  else Raise (Native (D := domain) "KeyError: wind_speed").

Definition hub_density (cfg : @ModelChainConfig domain)
    (p : @PowerPlant domain) (w : @WeatherSeries domain)
    : @result domain (list (nat * Q)) :=
  if has_variable (D := domain) "density" w
  then Ok (map (last_cell "density" w) (rows w))
  else Ok (map (fun row => (fst row, 1225 # 1000)) (rows w)).

Definition power_of (cfg : @ModelChainConfig domain)
    (p : @PowerPlant domain) (wind_speed : list (nat * Q))
    (density : option (list (nat * Q))) : @result domain (list (nat * Q)) :=
  match plant_power_curve p with
  | Some curve =>
      Ok (map (fun s => (fst s, inject_Z (Z.of_N (step_lookup 0%N curve (snd s)))))
              wind_speed)
  | None => Raise (Native (D := domain) "TypeError: power_curve")
  end.

Definition collaborators : @Collaborators domain :=
  @Build_Collaborators domain
    mean                              (* np_mean *)
    0%Q                               (* num_zero *)
    (fun a b => Qred (a * b))         (* num_mul *)
    Qle_bool                          (* num_leb *)
    catalogue                         (* get_wind_efficiency_curve *)
    (step_lookup 1%Q)                 (* efficiency_at *)
    aggregate_fleet                   (* aggregate *)
    (fun fleet => Ok (fst fleet))     (* layout_mean_hub_height *)
    hub_wind_speed hub_density power_of.

(** A farm of turbines with hub height 100 m. *)
Definition farm : @PowerPlant domain :=
  @Build_PowerPlant domain
    (100%Q, [(3%Q, 50000%N); (6%Q, 400000%N); (9%Q, 1500000%N);
             (12%Q, 3000000%N); (25%Q, 0%N)])
    None None.

Definition options (model : string) (correction : bool)
    : @ModelChainOptions domain :=
  @Build_ModelChainOptions domain
    "logarithmic" "linear_gradient" "barometric" model correction 0%Q None.

(** The model chain over [farm] with the given wake-loss mode and
    otherwise the defaults of line 139-142. *)
Definition chain (wake : option string) (model : string) (correction : bool)
    : @World domain :=
  __init__ (D := domain) farm wake (Some false) (1 # 2) "turbulence_intensity"
    "wind_farm_power_curves" (options model correction).

(** Two hours of weather: wind speed at 10 m and 80 m, roughness length at
    0 m. *)
Definition weather : @WeatherSeries domain :=
  @Build_WeatherSeries domain
    [("wind_speed", 10%Q); ("wind_speed", 80%Q); ("roughness_length", 0%Q)]
    [(0%nat, [5%Q; 8%Q; 15 # 100]);
     (1%nat, [7%Q; 10%Q; 15 # 100])].

(** The same two hours with turbulence intensity at two heights. *)
Definition gusty : @WeatherSeries domain :=
  @Build_WeatherSeries domain
    [("wind_speed", 10%Q); ("turbulence_intensity", 10%Q);
     ("wind_speed", 80%Q); ("turbulence_intensity", 80%Q);
     ("roughness_length", 0%Q)]
    [(0%nat, [5%Q; 1 # 10; 8%Q; 2 # 10; 15 # 100]);
     (1%nat, [7%Q; 3 # 10; 10%Q; 2 # 10; 15 # 100])].

(** Other wind speeds, the same turbulence: its mean is again 1/5. *)
Definition calm : @WeatherSeries domain :=
  @Build_WeatherSeries domain
    [("turbulence_intensity", 50%Q); ("wind_speed", 50%Q);
     ("roughness_length", 0%Q)]
    [(0%nat, [1 # 5; 2%Q; 3 # 100])].

(** The chain with smoothing switched on: without turbulence intensity in
    the weather the aggregation of this plant fails. *)
Definition smoothed_chain : @World domain :=
  __init__ (D := domain) farm None (Some true) (1 # 2) "turbulence_intensity"
    "wind_farm_power_curves" (options "power_curve" false).

(** Rational samples are their own literals. *)
Definition literals : @Literals domain :=
  @Build_Literals domain (fun q => q).

End Example.

(** ** The small plant with float samples that may be nan *)

(** The same plant over samples that are a rational or [nan], written
    [None].  As in numpy, [nan] goes through every arithmetic operation and
    every interpolation, and every comparison with it is false. *)
Module NanExample.

Definition domain : Domain :=
  {| num := option Q;
     timestamp := nat;
     Fleet := Q * list (Q * N);
     Curve := list (Q * N);
     EfficiencyCurve := list (Q * Q);
     NativeError := string |}.

Fixpoint all_numbers (cells : list (option Q)) : option (list Q) :=
  match cells with
  | [] => Some []
  | None :: _ => None
  | Some q :: rest =>
      match all_numbers rest with
      | Some qs => Some (q :: qs)
      | None => None
      end
  end.

Definition mean (cells : list (list (option Q))) : option Q :=
  match all_numbers (List.concat cells) with
  | Some qs => Some (Example.mean [qs])
  | None => None
  end.

Definition mul (a b : option Q) : option Q :=
  match a, b with
  | Some x, Some y => Some (Qred (x * y))
  | _, _ => None
  end.

Definition leb (a b : option Q) : bool :=
  match a, b with
  | Some x, Some y => Qle_bool x y
  | _, _ => false
  end.

Definition efficiency (curve : list (Q * Q)) (v : option Q) : option Q :=
  match v with
  | Some x => Some (Example.step_lookup 1%Q curve x)
  | None => None
  end.

Definition aggregate_fleet (args : @AggregatorArgs domain)
    (fleet : Q * list (Q * N)) : @result domain (list (Q * N)) :=
  match arg_wake_losses_model args with
  | None => Ok (snd fleet)
  | Some _ => Ok (Example.scale_watts 90 (snd fleet))
  end.

Definition last_cell (name : string) (w : @WeatherSeries domain)
    (row : nat * list (option Q)) : nat * option Q :=
  (fst row,
   last (select_cells (D := domain) name (columns w) (snd row)) None).

Definition hub_wind_speed (cfg : @ModelChainConfig domain)
    (p : @PowerPlant domain) (w : @WeatherSeries domain)
    : @result domain (list (nat * option Q)) :=
  if has_variable (D := domain) "wind_speed" w
  then match hub_height p with
       | Some _ => Ok (map (last_cell "wind_speed" w) (rows w))
       | None => Raise (Native (D := domain) "TypeError: hub_height")
       end
  else Raise (Native (D := domain) "KeyError: wind_speed").

Definition hub_density (cfg : @ModelChainConfig domain)
    (p : @PowerPlant domain) (w : @WeatherSeries domain)
    : @result domain (list (nat * option Q)) :=
  Ok (map (fun row => (fst row, Some (1225 # 1000))) (rows w)).

(** The power at one wind-speed sample: interpolation in the curve gives
    [nan] for a [nan] sample. *)
Definition power_at (curve : list (Q * N)) (v : option Q) : option Q :=
  match v with
  | Some x => Some (inject_Z (Z.of_N (Example.step_lookup 0%N curve x)))
  | None => None
  end.

Definition power_of (cfg : @ModelChainConfig domain)
    (p : @PowerPlant domain) (wind_speed : list (nat * option Q))
    (density : option (list (nat * option Q)))
    : @result domain (list (nat * option Q)) :=
  match plant_power_curve p with
  | Some curve => Ok (map (fun s => (fst s, power_at curve (snd s))) wind_speed)
  | None => Raise (Native (D := domain) "TypeError: power_curve")
  end.

Definition collaborators : @Collaborators domain :=
  @Build_Collaborators domain
    mean                              (* np_mean *)
    (Some 0%Q)                        (* num_zero *)
    mul                               (* num_mul *)
    leb                               (* num_leb *)
    Example.catalogue                 (* get_wind_efficiency_curve *)
    efficiency                        (* efficiency_at *)
    aggregate_fleet                   (* aggregate *)
    (fun fleet => Ok (Some (fst fleet))) (* layout_mean_hub_height *)
    hub_wind_speed hub_density power_of.

Definition farm : @PowerPlant domain :=
  @Build_PowerPlant domain
    (100%Q, [(3%Q, 50000%N); (6%Q, 400000%N); (9%Q, 1500000%N);
             (12%Q, 3000000%N); (25%Q, 0%N)])
    None None.

(** The model chain over [farm] without wake losses, plain power-curve
    model. *)
Definition chain : @World domain :=
  __init__ (D := domain) farm None (Some false) (Some (1 # 2))
    "turbulence_intensity" "wind_farm_power_curves"
    (@Build_ModelChainOptions domain
       "logarithmic" "linear_gradient" "barometric" "power_curve" false
       (Some 0%Q) None).

(** Two hours of weather; the wind speed at 80 m is missing, that is
    [nan], in the second hour. *)
Definition weather : @WeatherSeries domain :=
  @Build_WeatherSeries domain
    [("wind_speed", Some 10%Q); ("wind_speed", Some 80%Q);
     ("roughness_length", Some 0%Q)]
    [(0%nat, [Some 5%Q; Some 8%Q; Some (15 # 100)]);
     (1%nat, [Some 7%Q; None; Some (15 # 100)])].

End NanExample.


(** ** Properties *)

Section Properties.
Context `{C : Collaborators}.

(** *** The monad, step by step *)

Lemma respects_bind {A B : Type} (R : World -> World -> Prop)
    (m : M A) (k : A -> M B) :
  (forall w1 w2 w3, R w1 w2 -> R w2 w3 -> R w1 w3) ->
  respects R m -> (forall a, respects R (k a)) -> respects R (bind m k).
Proof.
  intros Htrans Hm Hk w. unfold bind.
  specialize (Hm w). destruct (m w) as [[a | e] w1]; simpl in *.
  - eapply Htrans; [exact Hm | apply Hk].
  - exact Hm.
Qed.

Lemma respects_if {A : Type} (R : World -> World -> Prop) (b : bool)
    (m1 m2 : M A) :
  respects R m1 -> respects R m2 -> respects R (if b then m1 else m2).
Proof. destruct b; trivial. Qed.

Lemma same_settings_trans w1 w2 w3 :
  same_settings w1 w2 -> same_settings w2 w3 -> same_settings w1 w3.
Proof. unfold same_settings. intros [-> ->] [-> ->]. split; reflexivity. Qed.

Ltac frame_steps R Htrans :=
  repeat first
    [ apply (respects_bind R); [exact Htrans | | intro]
    | apply respects_if
    | match goal with
      | |- respects _ (match ?x with _ => _ end) => destruct x
      end
    | (intros w0; split; reflexivity)
    | (intros w0; reflexivity) ].

Lemma assign_power_curve_same_settings weather_df :
  respects same_settings (assign_power_curve weather_df).
Proof.
  unfold assign_power_curve, choose_wake_losses_model,
    plant_assign_power_curve.
  frame_steps same_settings same_settings_trans.
Qed.

Lemma run_model_same_settings weather_df :
  respects same_settings (run_model weather_df).
Proof.
  unfold run_model.
  apply (respects_bind same_settings);
    [exact same_settings_trans | apply assign_power_curve_same_settings | intro].
  unfold plant_mean_hub_height, self_wind_speed_hub, self_density_hub,
    wake_losses_reduce_wind_speed, self_calculate_power_output.
  frame_steps same_settings same_settings_trans.
Qed.

Lemma invoke_same_settings w c : same_settings w (invoke w c).
Proof.
  destruct c; simpl.
  - apply assign_power_curve_same_settings.
  - apply run_model_same_settings.
Qed.

Lemma after_same_settings history : forall w, same_settings w (after w history).
Proof.
  induction history as [| c history IH]; intros w; simpl.
  - split; reflexivity.
  - eapply same_settings_trans; [apply invoke_same_settings | apply IH].
Qed.


(** *** The methods in direct style *)

Lemma skipn_length_app {A : Type} (l r : list A) :
  skipn (List.length l) (l ++ r) = r.
Proof. induction l as [| a l IH]; simpl; auto. Qed.

Lemma new_calls_app (w w' : World) (added : list Call) :
  calls w' = calls w ++ added -> new_calls w w' = added.
Proof. unfold new_calls. intros ->. apply skipn_length_app. Qed.

Lemma eqb_false_neq (a b : string) : String.eqb a b = false <-> a <> b.
Proof. apply String.eqb_neq. Qed.

(** [assign_power_curve] makes one call, with [aggregator_args], and
    leaves [self] alone; the plant gets the aggregated curve when the
    aggregation succeeds. *)
Lemma assign_power_curve_outcome (w : World) (weather_df : WeatherSeries) :
  let args := aggregator_args (config (self w)) weather_df in
  exists msgs,
    assign_power_curve weather_df w =
    match aggregate args (turbines (plant w)) with
    | Ok c =>
        (Ok tt,
         {| self := self w;
            plant := {| turbines := turbines (plant w);
                        plant_power_curve := Some c;
                        hub_height := hub_height (plant w) |};
            calls := calls w ++ [Call_assign_power_curve args];
            debug_log := msgs |})
    | Raise e =>
        (Raise e,
         {| self := self w; plant := plant w;
            calls := calls w ++ [Call_assign_power_curve args];
            debug_log := msgs |})
    end.
Proof.
  destruct w as [[cfg pc po] p cs msgs].
  unfold aggregator_args, wake_losses_model_to_power_curve,
    assign_power_curve, choose_wake_losses_model, plant_assign_power_curve,
    set_plant, record_call, logging_debug, get_config, get_plant, lift,
    bind, ret.
  cbn [self config plant calls debug_log fst snd].
  destruct (py_eq (wake_losses_model cfg) "power_efficiency_curve"
            || py_eq (wake_losses_model cfg) "constant_efficiency"
            || is_None (wake_losses_model cfg));
    [destruct (is_None (wake_losses_model cfg)) |];
    cbn [self config plant calls debug_log fst snd];
    (destruct (aggregate _ (turbines p)); [destruct (is_None (smoothing cfg)) |]);
    eexists; reflexivity.
Qed.

Ltac reduce_world :=
  cbn [self config plant calls debug_log fst snd turbines
       plant_power_curve hub_height power_curve power_output
       trace_result trace_plant trace_calls returned].

Ltac finish_run :=
  eexists; reduce_world; rewrite <- ?app_assoc; reflexivity.

(** [run_model] does what [run_trace] says. *)
Lemma run_model_outcome (w : World) (weather_df : WeatherSeries) :
  let t := run_trace (config (self w)) (plant w) weather_df in
  exists msgs,
    run_model weather_df w = (returned (trace_result t), world_after w t msgs).
Proof.
  destruct (assign_power_curve_outcome w weather_df) as [msgs Ha].
  destruct w as [[cfg pc po] p cs msgs0].
  reduce_world; cbn [self config plant calls debug_log] in Ha.
  unfold run_model, run_trace, world_after.
  unfold bind at 1. rewrite Ha. clear Ha.
  destruct (aggregate _ (turbines p)) as [c | e]; [| finish_run].
  unfold plant_mean_hub_height, self_wind_speed_hub, self_density_hub,
    wake_losses_reduce_wind_speed, self_calculate_power_output,
    set_power_output, set_plant, record_call, get_config, get_plant, lift,
    bind, ret, density_stage, wake_stage, density_skipped,
    wind_speed_reduced.
  reduce_world.
  destruct (layout_mean_hub_height (turbines p)) as [h | e];
    reduce_world; [| finish_run].
  destruct (wind_speed_hub cfg _ weather_df) as [ws | e];
    reduce_world; [| finish_run].
  destruct (String.eqb (power_output_model cfg) "power_curve"
            && negb (density_correction cfg));
    reduce_world;
    [| destruct (density_hub cfg _ weather_df) as [d | e];
       reduce_world; [| finish_run]].
  all: destruct (negb (py_eq (wake_losses_model cfg) "power_efficiency_curve")
                 && negb (py_eq (wake_losses_model cfg) "constant_efficiency")
                 && negb (is_None (wake_losses_model cfg)));
    reduce_world;
    [destruct (reduce_wind_speed ws _) as [ws' | e];
     reduce_world; [| finish_run] |].
  all: destruct (calculate_power_output cfg _ _ _) as [out | e];
    finish_run.
Qed.

(** What a run leaves, read off [run_trace]. *)
Lemma run_model_result (w : World) (weather_df : WeatherSeries) :
  fst (run_model weather_df w)
  = returned (trace_result (run_trace (config (self w)) (plant w) weather_df)).
Proof. destruct (run_model_outcome w weather_df) as [msgs ->]. reflexivity. Qed.

Lemma run_model_plant (w : World) (weather_df : WeatherSeries) :
  plant (snd (run_model weather_df w))
  = trace_plant (run_trace (config (self w)) (plant w) weather_df).
Proof. destruct (run_model_outcome w weather_df) as [msgs ->]. reflexivity. Qed.

Lemma run_model_new_calls (w : World) (weather_df : WeatherSeries) :
  new_calls w (snd (run_model weather_df w))
  = trace_calls (run_trace (config (self w)) (plant w) weather_df).
Proof.
  destruct (run_model_outcome w weather_df) as [msgs ->].
  apply new_calls_app. reflexivity.
Qed.

Lemma run_model_self (w : World) (weather_df : WeatherSeries) :
  self (snd (run_model weather_df w))
  = match trace_result (run_trace (config (self w)) (plant w) weather_df) with
    | Ok out => {| config := config (self w);
                   power_curve := power_curve (self w);
                   power_output := Some out |}
    | Raise _ => self w
    end.
Proof. destruct (run_model_outcome w weather_df) as [msgs ->]. reflexivity. Qed.

Lemma assign_power_curve_new_calls (w : World) (weather_df : WeatherSeries) :
  new_calls w (snd (assign_power_curve weather_df w))
  = [Call_assign_power_curve (aggregator_args (config (self w)) weather_df)].
Proof.
  destruct (assign_power_curve_outcome w weather_df) as [msgs ->].
  apply new_calls_app. destruct (aggregate _ _); reflexivity.
Qed.

Lemma assign_power_curve_result (w : World) (weather_df : WeatherSeries) :
  fst (assign_power_curve weather_df w)
  = returned (aggregate (aggregator_args (config (self w)) weather_df)
                        (turbines (plant w))).
Proof.
  destruct (assign_power_curve_outcome w weather_df) as [msgs ->].
  destruct (aggregate _ _); reflexivity.
Qed.

(** *** The two tests on [wake_losses_model] *)




Lemma post_hoc_path_reduced (cfg : ModelChainConfig) (name : string) :
  post_hoc_path (wake_losses_model cfg) name ->
  wind_speed_reduced cfg = true
  /\ wake_losses_model_to_power_curve cfg = None
  /\ py_str (wake_losses_model cfg) = name.
Proof.
  intros (Hm & H1 & H2).
  unfold wind_speed_reduced, wake_losses_model_to_power_curve.
  rewrite Hm. simpl.
  apply eqb_false_neq in H1, H2. rewrite H1, H2. auto.
Qed.

(** Split [run_trace] at every collaborator result. *)
Ltac split_trace :=
  unfold run_trace, density_stage, wake_stage;
  repeat match goal with
         | |- context [match ?x with _ => _ end] =>
             lazymatch x with
             | context [match _ with _ => _ end] => fail
             | _ => destruct x eqn:?
             end
         end;
  cbn [trace_result trace_plant trace_calls returned app In].

Ltac same_call :=
  match goal with
  | H : Call_calculate_power_output _ _ = Call_calculate_power_output _ _
    |- _ => inversion H; subst; clear H
  | H : Call_reduce_wind_speed _ _ = Call_reduce_wind_speed _ _
    |- _ => inversion H; subst; clear H
  | H : Call_density_hub _ = Call_density_hub _
    |- _ => inversion H; subst; clear H
  end.


Lemma attenuate_index (curve : EfficiencyCurve) (ws : Series) :
  index (attenuate curve ws) = index ws.
Proof.
  unfold index, attenuate. rewrite map_map. apply map_ext. reflexivity.
Qed.

Lemma attenuate_values (curve : EfficiencyCurve) (ws : Series) :
  values (attenuate curve ws)
  = map (fun v => num_mul v (efficiency_at curve v)) (values ws).
Proof.
  unfold values, attenuate. rewrite !map_map. apply map_ext. reflexivity.
Qed.

Lemma density_stage_resolved (cfg : ModelChainConfig) (p : PowerPlant)
    (weather_df : WeatherSeries) (density : option Series) :
  density_resolved cfg p weather_df density ->
  density_stage cfg p weather_df
  = (Ok density,
     if density_skipped cfg then [] else [Call_density_hub weather_df]).
Proof.
  unfold density_resolved, density_stage.
  destruct (density_skipped cfg).
  - intros ->. reflexivity.
  - intros (d & -> & ->). reflexivity.
Qed.

(** The rest of a run once lines 263-268 have returned. *)
Lemma run_trace_after_density (w : World) (weather_df : WeatherSeries)
    (c : Curve) (h : num) (hub : Series) (density : option Series) :
  hub_resolved w weather_df c h hub ->
  density_resolved (config (self w)) (updated_plant (plant w) c h)
    weather_df density ->
  run_trace (config (self w)) (plant w) weather_df
  = match wake_stage (config (self w)) hub with
    | (Raise e, cw) =>
        {| trace_result := Raise e;
           trace_plant := updated_plant (plant w) c h;
           trace_calls := calls_until_density (config (self w)) weather_df
                          ++ cw |}
    | (Ok speed, cw) =>
        {| trace_result :=
             calculate_power_output (config (self w))
               (updated_plant (plant w) c h) speed density;
           trace_plant := updated_plant (plant w) c h;
           trace_calls := calls_until_density (config (self w)) weather_df
                          ++ cw
                          ++ [Call_calculate_power_output speed density] |}
    end.
Proof.
  intros (Hc & Hh & Hhub) Hdensity.
  apply density_stage_resolved in Hdensity.
  unfold updated_plant in *.
  unfold run_trace. rewrite Hc, Hh, Hhub, Hdensity.
  unfold calls_until_density.
  destruct (wake_stage _ hub) as [[speed | e] cw];
    rewrite <- ?app_assoc; reflexivity.
Qed.

(** C2: on the post-hoc path ([wake_losses_model] is any other string
    [name]), [assign_power_curve] hands [None] as wake-loss mode to
    [power_plant.assign_power_curve]; in [run_model] every call of
    [calculate_power_output] comes directly after the call of
    [reduce_wind_speed] on the series [wind_speed_hub] returned and
    [name], and gets that series attenuated by the curve of that name:
    same index, every sample multiplied by the curve's efficiency at that
    sample; a run that ends normally has made both calls; and whenever the
    aggregation, the mean hub height, [wind_speed_hub] and the density
    step return, [run_model] calls [reduce_wind_speed] on the returned
    series and [name], and, the curve being catalogued, calls
    [calculate_power_output] on the attenuated series next, ends as that
    call ends, and stores its result in [power_output]. *)
Theorem post_hoc_path_mode_withheld_wind_speed_attenuated :
  forall (w : World) (weather_df : WeatherSeries) (name : string),
    post_hoc_path (wake_losses_model (config (self w))) name ->
    (exists args,
        new_calls w (snd (assign_power_curve weather_df w))
        = [Call_assign_power_curve args]
        /\ arg_wake_losses_model args = None)
    /\ (forall ws d,
          In (Call_calculate_power_output ws d)
             (new_calls w (snd (run_model weather_df w))) ->
          exists hub curve before,
            wind_speed_hub (config (self w))
              (plant (snd (run_model weather_df w))) weather_df = Ok hub
            /\ get_wind_efficiency_curve name = Some curve
            /\ new_calls w (snd (run_model weather_df w))
               = before ++ [Call_reduce_wind_speed hub name;
                            Call_calculate_power_output ws d]
            /\ ws = attenuate curve hub
            /\ index ws = index hub
            /\ values ws
               = map (fun v => num_mul v (efficiency_at curve v)) (values hub))
    /\ (fst (run_model weather_df w) = Ok tt ->
        exists ws d,
          In (Call_calculate_power_output ws d)
             (new_calls w (snd (run_model weather_df w))))
    /\ (forall c h hub density,
          hub_resolved w weather_df c h hub ->
          density_resolved (config (self w)) (updated_plant (plant w) c h)
            weather_df density ->
          In (Call_reduce_wind_speed hub name)
             (new_calls w (snd (run_model weather_df w)))
          /\ forall curve,
               get_wind_efficiency_curve name = Some curve ->
               new_calls w (snd (run_model weather_df w))
               = calls_until_density (config (self w)) weather_df
                 ++ [Call_reduce_wind_speed hub name;
                     Call_calculate_power_output (attenuate curve hub) density]
               /\ fst (run_model weather_df w)
                  = returned (calculate_power_output (config (self w))
                                (updated_plant (plant w) c h)
                                (attenuate curve hub) density)
               /\ forall out,
                    calculate_power_output (config (self w))
                      (updated_plant (plant w) c h)
                      (attenuate curve hub) density = Ok out ->
                    power_output (self (snd (run_model weather_df w)))
                    = Some out).
Proof.
  intros w weather_df name Hpath.
  apply post_hoc_path_reduced in Hpath.
  destruct Hpath as (Hred & Hmode & Hname).
  rewrite assign_power_curve_new_calls, run_model_new_calls,
    run_model_plant, run_model_result, run_model_self.
  split; [| split; [| split]].
  - eexists. split; [reflexivity | exact Hmode].
  - intros ws d. unfold run_trace, density_stage, wake_stage.
    rewrite Hred, Hname. unfold reduce_wind_speed.
    destruct (aggregate _ _) as [c | e]; cbn [trace_calls In];
      [| intuition discriminate].
    destruct (layout_mean_hub_height _) as [h | e]; cbn [trace_calls In];
      [| intuition discriminate].
    destruct (wind_speed_hub _ _ _) as [hub | e] eqn:Hhub;
      cbn [trace_calls trace_plant In]; [| intuition discriminate].
    destruct (get_wind_efficiency_curve name) as [curve |] eqn:Hcurve.
    + destruct (density_skipped _); [| destruct (density_hub _ _ _)];
        cbn [trace_calls trace_plant app In];
        intuition; try discriminate; same_call.
      * exists hub, curve,
          [Call_assign_power_curve
             (aggregator_args (config (self w)) weather_df);
           Call_mean_hub_height; Call_wind_speed_hub weather_df].
        rewrite attenuate_index, attenuate_values. auto 10.
      * exists hub, curve,
          [Call_assign_power_curve
             (aggregator_args (config (self w)) weather_df);
           Call_mean_hub_height; Call_wind_speed_hub weather_df;
           Call_density_hub weather_df].
        rewrite attenuate_index, attenuate_values. auto 10.
    + destruct (density_skipped _); [| destruct (density_hub _ _ _)];
        cbn [trace_calls trace_plant app In];
        intuition discriminate.
  - split_trace; try congruence; intros Hok; try discriminate; eauto 10.
  - intros c h hub density Hhub Hdensity.
    rewrite (run_trace_after_density _ _ _ _ _ _ Hhub Hdensity).
    unfold wake_stage, reduce_wind_speed. rewrite Hred, Hname.
    destruct (get_wind_efficiency_curve name) as [curve |];
      cbn [trace_result trace_calls trace_plant].
    + split.
      * apply in_or_app. right. left. reflexivity.
      * intros curve' E. inversion E; subst curve'. clear E.
        split; [reflexivity |]. split; [reflexivity |].
        intros out Hout. rewrite Hout. reflexivity.
    + split; [| discriminate].
      apply in_or_app. right. left. reflexivity.
Qed.

Lemma has_variable_In (name : string) (weather_df : WeatherSeries) :
  has_variable name weather_df = true
  <-> In name (get_level_values_0 weather_df).
Proof.
  unfold has_variable. rewrite existsb_exists. split.
  - intros (x & Hin & Heq). apply String.eqb_eq in Heq. subst. exact Hin.
  - intros Hin. exists name. split; [exact Hin | apply String.eqb_refl].
Qed.

Lemma turbulence_intensity_absent (weather_df : WeatherSeries) :
  ~ In "turbulence_intensity" (get_level_values_0 weather_df) ->
  turbulence_intensity_of weather_df = None.
Proof.
  intros H. unfold turbulence_intensity_of.
  destruct (has_variable _ _) eqn:E; [| reflexivity].
  apply has_variable_In in E. contradiction.
Qed.

Lemma turbulence_intensity_present (weather_df : WeatherSeries) :
  In "turbulence_intensity" (get_level_values_0 weather_df) ->
  turbulence_intensity_of weather_df
  = Some (np_mean (variable_values "turbulence_intensity" weather_df)).
Proof.
  intros H. unfold turbulence_intensity_of.
  apply has_variable_In in H. rewrite H. reflexivity.
Qed.

(** C3: [assign_power_curve] always reaches its one call of
    [power_plant.assign_power_curve] and raises only what that call
    raises.  The [turbulence_intensity] argument is [None] when no column
    of the weather frame is named [turbulence_intensity], and otherwise the
    mean over all cells under that name, all timestamps included. *)
Theorem turbulence_intensity_argument :
  forall (w : World) (weather_df : WeatherSeries),
    exists args,
      new_calls w (snd (assign_power_curve weather_df w))
      = [Call_assign_power_curve args]
      /\ fst (assign_power_curve weather_df w)
         = returned (aggregate args (turbines (plant w)))
      /\ (~ In "turbulence_intensity" (get_level_values_0 weather_df) ->
          arg_turbulence_intensity args = None)
      /\ (In "turbulence_intensity" (get_level_values_0 weather_df) ->
          arg_turbulence_intensity args
          = Some (np_mean (variable_values "turbulence_intensity" weather_df))).
Proof.
  intros w weather_df.
  exists (aggregator_args (config (self w)) weather_df).
  rewrite assign_power_curve_new_calls, assign_power_curve_result.
  repeat split.
  - apply turbulence_intensity_absent.
  - apply turbulence_intensity_present.
Qed.

Lemma density_skipped_iff (cfg : ModelChainConfig) :
  density_skipped cfg = true
  <-> power_output_model cfg = "power_curve" /\ density_correction cfg = false.
Proof.
  unfold density_skipped.
  rewrite andb_true_iff, String.eqb_eq, negb_true_iff. reflexivity.
Qed.

(** C4: with [plain] standing for "[power_output_model] is ['power_curve']
    and [density_correction] is [False]": when [plain] holds, [run_model]
    makes no call of [density_hub] and every call of
    [calculate_power_output] gets [None] as density; when it does not
    hold, every call of [calculate_power_output] gets the series that the
    call [density_hub(weather_df)] returned; and once [wind_speed_hub] has
    returned, [density_hub(weather_df)] is called if and only if [plain]
    does not hold.  And whenever the aggregation, the mean hub height and
    [wind_speed_hub] return: unless [plain] holds, [run_model] calls
    [density_hub(weather_df)]; and when the wake-loss step returns too,
    it calls [calculate_power_output] with density [None] if [plain] holds,
    and with the series [density_hub] returned if not. *)
Theorem density_hub_skipped_iff_plain_power_curve :
  forall (w : World) (weather_df : WeatherSeries),
    let cfg := config (self w) in
    let w' := snd (run_model weather_df w) in
    let plain :=
      power_output_model cfg = "power_curve"
      /\ density_correction cfg = false in
    (plain -> forall x, ~ In (Call_density_hub x) (new_calls w w'))
    /\ (forall ws d,
          In (Call_calculate_power_output ws d) (new_calls w w') ->
          (plain -> d = None)
          /\ (~ plain ->
              exists dens,
                density_hub cfg (plant w') weather_df = Ok dens
                /\ d = Some dens
                /\ In (Call_density_hub weather_df) (new_calls w w')))
    /\ (In (Call_wind_speed_hub weather_df) (new_calls w w') ->
        (exists ws, wind_speed_hub cfg (plant w') weather_df = Ok ws) ->
        (In (Call_density_hub weather_df) (new_calls w w') <-> ~ plain))
    /\ (forall c h hub,
          hub_resolved w weather_df c h hub ->
          (~ plain -> In (Call_density_hub weather_df) (new_calls w w'))
          /\ forall speed,
               wake_resolved cfg hub speed ->
               (plain ->
                In (Call_calculate_power_output speed None) (new_calls w w'))
               /\ (~ plain ->
                   forall dens,
                     density_hub cfg (updated_plant (plant w) c h) weather_df
                     = Ok dens ->
                     In (Call_calculate_power_output speed (Some dens))
                        (new_calls w w'))).
Proof.
  intros w weather_df cfg w' plain. subst w'.
  pose proof (density_skipped_iff cfg) as Hiff. fold plain in Hiff.
  rewrite run_model_new_calls, run_model_plant. fold cfg.
  unfold run_trace, density_stage.
  destruct (density_skipped cfg).
  - assert (Hplain : plain) by (apply Hiff; reflexivity).
    clearbody plain. clear Hiff.
    split; [| split; [| split]].
    + intros _ x. split_trace; intuition discriminate.
    + intros ws d. split_trace; intuition; try discriminate;
        same_call; reflexivity.
    + intros _ _. split_trace; intuition discriminate.
    + intros c h hub (Hc & Hh & Hhub). unfold updated_plant in *.
      fold cfg in Hc, Hhub. rewrite Hc, Hh, Hhub. split; [intros Hn; contradiction |].
      intros speed Hspeed. split; [intros _ | intros Hn; contradiction].
      unfold wake_resolved in Hspeed. unfold wake_stage.
      destruct (wind_speed_reduced cfg);
        [rewrite Hspeed | subst speed];
        cbn [trace_calls app In]; auto 10.
  - assert (Hplain : ~ plain)
      by (intros Hp; apply Hiff in Hp; discriminate).
    clearbody plain. clear Hiff.
    split; [| split; [| split]].
    + intros Hp. contradiction.
    + intros ws d. split_trace; intuition; try discriminate;
        same_call; eauto 10.
    + intros Hreach [ws Hws]. revert Hreach Hws.
      split_trace; intuition; try discriminate; try congruence.
    + intros c h hub (Hc & Hh & Hhub). unfold updated_plant in *.
      fold cfg in Hc, Hhub. rewrite Hc, Hh, Hhub. split.
      * intros _. destruct (density_hub cfg _ weather_df);
          [destruct (wake_stage cfg hub) as [[speed | e] cw] |];
          cbn [trace_calls app In]; auto 10.
      * intros speed Hspeed. split; [intros Hp; contradiction |].
        intros _ dens Hdens. rewrite Hdens.
        unfold wake_resolved in Hspeed. unfold wake_stage.
        destruct (wind_speed_reduced cfg);
          [rewrite Hspeed | subst speed];
          cbn [trace_calls app In]; auto 10.
Qed.

Lemma run_trace_result_fleet (cfg : ModelChainConfig) (p p' : PowerPlant)
    (weather_df : WeatherSeries) :
  turbines p' = turbines p ->
  trace_result (run_trace cfg p' weather_df)
  = trace_result (run_trace cfg p weather_df).
Proof.
  intros H. unfold run_trace. rewrite H.
  split_trace; reflexivity.
Qed.

Lemma run_trace_turbines (cfg : ModelChainConfig) (p : PowerPlant)
    (weather_df : WeatherSeries) :
  turbines (trace_plant (run_trace cfg p weather_df)) = turbines p.
Proof. split_trace; reflexivity. Qed.

Lemma run_model_config (w : World) (weather_df : WeatherSeries) :
  config (self (snd (run_model weather_df w))) = config (self w).
Proof. apply run_model_same_settings. Qed.

(** The result of a run and the power output it stores depend on the
    world only through the configuration and the turbines of the plant. *)
Lemma run_model_repeatable (w w' : World) (weather_df : WeatherSeries) :
  self w' = self (snd (run_model weather_df w)) ->
  turbines (plant w') = turbines (plant (snd (run_model weather_df w))) ->
  fst (run_model weather_df w') = fst (run_model weather_df w)
  /\ power_output (self (snd (run_model weather_df w')))
     = power_output (self (snd (run_model weather_df w))).
Proof.
  intros Hself Hfleet.
  assert (Hcfg : config (self w') = config (self w))
    by (rewrite Hself; apply run_model_config).
  rewrite run_model_plant, run_trace_turbines in Hfleet.
  rewrite !run_model_result, (run_model_self w'), Hcfg.
  rewrite (run_trace_result_fleet _ _ _ _ Hfleet).
  destruct (trace_result (run_trace (config (self w)) (plant w) weather_df))
    as [out | e] eqn:E.
  - split; [reflexivity |]. rewrite run_model_self, E. reflexivity.
  - split; [reflexivity |]. rewrite Hself. reflexivity.
Qed.

(** C6: [run_model] called twice in succession with the same weather ends
    the same way both times and leaves the same [power_output]; and the
    same holds when, between the two calls, anything but the model-chain
    object and the turbines of the plant has changed. *)
Theorem run_model_twice_same_power_output :
  forall (w : World) (weather_df : WeatherSeries),
    let w1 := snd (run_model weather_df w) in
    (fst (run_model weather_df w1) = fst (run_model weather_df w)
     /\ power_output (self (snd (run_model weather_df w1)))
        = power_output (self w1))
    /\ (forall w' : World,
          self w' = self w1 ->
          turbines (plant w') = turbines (plant w1) ->
          fst (run_model weather_df w') = fst (run_model weather_df w)
          /\ power_output (self (snd (run_model weather_df w')))
             = power_output (self w1)).
Proof.
  intros w weather_df w1. subst w1. split.
  - apply run_model_repeatable; reflexivity.
  - intros w'. apply run_model_repeatable.
Qed.



(** The runs of [run_model] when the wake-loss step is known to fail the
    way [Hwake] says. *)
Ltac unknown_name_cases Hwake :=
  unfold run_trace, density_stage;
  (destruct (aggregate _ _) as [? | ?];
   [destruct (layout_mean_hub_height _) as [? | ?];
    [destruct (wind_speed_hub _ _ _) as [? | ?] eqn:?;
     [destruct (density_skipped _);
      [| destruct (density_hub _ _ _) as [? | ?] eqn:?];
      rewrite ?Hwake |] |] |]);
  cbn [trace_result trace_calls trace_plant returned app In removelast].

(** C8: let [name] be a string other than the two embedded modes that
    names no catalogued wind efficiency curve.  Construction stores it
    without any lookup.  [assign_power_curve] makes its one call, with
    wake-loss mode [None], and raises only what that call raises.
    [run_model] never ends normally, never calls
    [calculate_power_output] and leaves [power_output] as it was; a call
    of [reduce_wind_speed] is its last call, is made with [name], and the
    run then ends with the lookup failure for [name]; and that call is
    made once [wind_speed_hub] has returned and the density, when needed,
    has been resolved.  Whenever the aggregation, the mean hub height,
    [wind_speed_hub] and the density step return, [run_model] has made
    exactly those calls and then the call of [reduce_wind_speed], and
    ends with the lookup failure for [name]; and when one of those steps
    raises, [run_model] ends with that step's exception, not with the
    lookup failure. *)
Theorem unknown_curve_name_fails_at_reduce_wind_speed :
  forall (w : World) (weather_df : WeatherSeries) (name : string),
    post_hoc_path (wake_losses_model (config (self w))) name ->
    get_wind_efficiency_curve name = None ->
    let cfg := config (self w) in
    let w' := snd (run_model weather_df w) in
    (forall p sm bw sdm so kwargs,
        wake_losses_model
          (config (self (__init__ p (Some name) sm bw sdm so kwargs)))
        = Some name
        /\ calls (__init__ p (Some name) sm bw sdm so kwargs) = [])
    /\ (exists args,
          new_calls w (snd (assign_power_curve weather_df w))
          = [Call_assign_power_curve args]
          /\ arg_wake_losses_model args = None
          /\ fst (assign_power_curve weather_df w)
             = returned (aggregate args (turbines (plant w)))
          /\ forall c,
               aggregate args (turbines (plant w)) = Ok c ->
               fst (assign_power_curve weather_df w) = Ok tt)
    /\ fst (run_model weather_df w) <> Ok tt
    /\ (forall ws d,
          ~ In (Call_calculate_power_output ws d) (new_calls w w'))
    /\ power_output (self w') = power_output (self w)
    /\ (forall ws n,
          In (Call_reduce_wind_speed ws n) (new_calls w w') ->
          n = name
          /\ fst (run_model weather_df w) = Raise (NameNotFound name)
          /\ exists before,
               new_calls w w' = before ++ [Call_reduce_wind_speed ws name])
    /\ (forall ws,
          In (Call_wind_speed_hub weather_df) (new_calls w w') ->
          wind_speed_hub cfg (plant w') weather_df = Ok ws ->
          (density_skipped cfg = true
           \/ exists d, density_hub cfg (plant w') weather_df = Ok d) ->
          In (Call_reduce_wind_speed ws name) (new_calls w w'))
    /\ (forall c h hub density,
          hub_resolved w weather_df c h hub ->
          density_resolved cfg (updated_plant (plant w) c h) weather_df
            density ->
          fst (run_model weather_df w) = Raise (NameNotFound name)
          /\ new_calls w w'
             = calls_until_density cfg weather_df
               ++ [Call_reduce_wind_speed hub name])
    /\ (forall e,
          aggregate (aggregator_args cfg weather_df) (turbines (plant w))
          = Raise e ->
          fst (run_model weather_df w) = Raise e)
    /\ (forall c e,
          aggregate (aggregator_args cfg weather_df) (turbines (plant w))
          = Ok c ->
          layout_mean_hub_height (turbines (plant w)) = Raise e ->
          fst (run_model weather_df w) = Raise e)
    /\ (forall c h e,
          aggregate (aggregator_args cfg weather_df) (turbines (plant w))
          = Ok c ->
          layout_mean_hub_height (turbines (plant w)) = Ok h ->
          wind_speed_hub cfg (updated_plant (plant w) c h) weather_df
          = Raise e ->
          fst (run_model weather_df w) = Raise e)
    /\ (forall c h hub e,
          hub_resolved w weather_df c h hub ->
          density_skipped cfg = false ->
          density_hub cfg (updated_plant (plant w) c h) weather_df
          = Raise e ->
          fst (run_model weather_df w) = Raise e).
Proof.
  intros w weather_df name Hpath Hunknown cfg w'. subst w' cfg.
  apply post_hoc_path_reduced in Hpath.
  destruct Hpath as (Hred & Hmode & Hname).
  assert (Hwake : forall hub,
             wake_stage (config (self w)) hub
             = (Raise (NameNotFound name), [Call_reduce_wind_speed hub name])).
  { intros hub. unfold wake_stage, reduce_wind_speed.
    rewrite Hred, Hname, Hunknown. reflexivity. }
  rewrite assign_power_curve_new_calls, assign_power_curve_result,
    run_model_new_calls, run_model_plant, run_model_result, run_model_self.
  repeat match goal with |- _ /\ _ => split end.
  - intros. split; reflexivity.
  - eexists. split; [reflexivity |]. split; [exact Hmode |].
    split; [reflexivity |]. intros c Hc. rewrite Hc. reflexivity.
  - unknown_name_cases Hwake; discriminate.
  - intros ws d. unknown_name_cases Hwake; intuition discriminate.
  - unknown_name_cases Hwake; reflexivity.
  - intros ws n. unknown_name_cases Hwake;
      intuition; try discriminate; same_call; try reflexivity;
      match goal with
      | |- exists before, ?l = _ => exists (removelast l); reflexivity
      end.
  - intros ws. unknown_name_cases Hwake;
      intros Hin Hws Hd; intuition; try discriminate; try congruence;
      try (match goal with
           | H : exists d, _ |- _ => destruct H as [? H]; congruence
           end);
      match goal with
      | H1 : ?x = Ok _, H2 : ?x = Ok _ |- _ =>
          rewrite H1 in H2; inversion H2; subst; auto 10
      end.
  - intros c h hub density Hhub Hdensity.
    rewrite (run_trace_after_density _ _ _ _ _ _ Hhub Hdensity), Hwake.
    split; reflexivity.
  - intros e He. unfold run_trace. rewrite He. reflexivity.
  - intros c e Hc Hh. unfold run_trace. rewrite Hc, Hh. reflexivity.
  - intros c h e Hc Hh Hhub. unfold updated_plant in Hhub.
    unfold run_trace. rewrite Hc, Hh, Hhub. reflexivity.
  - intros c h hub e (Hc & Hh & Hhub) Hskip Hd. unfold updated_plant in *.
    unfold run_trace, density_stage. rewrite Hc, Hh, Hhub, Hskip, Hd.
    reflexivity.
Qed.

Lemma assign_power_curve_self (w : World) (weather_df : WeatherSeries) :
  self (snd (assign_power_curve weather_df w)) = self w.
Proof.
  destruct (assign_power_curve_outcome w weather_df) as [msgs ->].
  destruct (aggregate _ _); reflexivity.
Qed.

(** C9: whatever sequence of [assign_power_curve] and [run_model] calls
    follows the construction, every configuration attribute still has the
    value given at construction, and [power_curve] is still [None].  For
    one call from any state: [assign_power_curve] leaves the whole
    model-chain object as it was, [run_model] leaves everything but
    [power_output] as it was. *)
Theorem configuration_fixed_at_construction :
  (forall (power_plant : PowerPlant) (wl : option string) (sm : option bool)
          (bw : num) (sdm so : string) (kwargs : ModelChainOptions)
          (history : list MethodCall),
      let cfg :=
        config (self (after (__init__ power_plant wl sm bw sdm so kwargs)
                            history)) in
      wake_losses_model cfg = wl
      /\ smoothing cfg = sm
      /\ block_width cfg = bw
      /\ standard_deviation_method cfg = sdm
      /\ smoothing_order cfg = so
      /\ wind_speed_model cfg = opt_wind_speed_model kwargs
      /\ temperature_model cfg = opt_temperature_model kwargs
      /\ density_model cfg = opt_density_model kwargs
      /\ power_output_model cfg = opt_power_output_model kwargs
      /\ density_correction cfg = opt_density_correction kwargs
      /\ obstacle_height cfg = opt_obstacle_height kwargs
      /\ hellman_exp cfg = opt_hellman_exp kwargs
      /\ power_curve (self (after (__init__ power_plant wl sm bw sdm so kwargs)
                                  history)) = None)
  /\ (forall (w : World) (weather_df : WeatherSeries),
        self (snd (assign_power_curve weather_df w)) = self w)
  /\ (forall (w : World) (weather_df : WeatherSeries),
        config (self (snd (run_model weather_df w))) = config (self w)
        /\ power_curve (self (snd (run_model weather_df w)))
           = power_curve (self w)).
Proof.
  split; [| split].
  - intros power_plant wl sm bw sdm so kwargs history cfg. subst cfg.
    destruct (after_same_settings history
                (__init__ power_plant wl sm bw sdm so kwargs)) as [-> ->].
    repeat split.
  - apply assign_power_curve_self.
  - intros w weather_df. apply run_model_same_settings.
Qed.

(** C10: two weather frames that both lack a [turbulence_intensity]
    column, or both have one with the same mean over all its cells, make
    [assign_power_curve] behave identically: the same call of
    [power_plant.assign_power_curve], the same result, the same world
    afterwards.  No other column is read. *)
Theorem assign_power_curve_reads_only_turbulence_intensity :
  forall (w : World) (weather_1 weather_2 : WeatherSeries),
    (~ In "turbulence_intensity" (get_level_values_0 weather_1)
     /\ ~ In "turbulence_intensity" (get_level_values_0 weather_2))
    \/ (In "turbulence_intensity" (get_level_values_0 weather_1)
        /\ In "turbulence_intensity" (get_level_values_0 weather_2)
        /\ np_mean (variable_values "turbulence_intensity" weather_1)
           = np_mean (variable_values "turbulence_intensity" weather_2)) ->
    assign_power_curve weather_1 w = assign_power_curve weather_2 w
    /\ exists args,
         new_calls w (snd (assign_power_curve weather_1 w))
         = [Call_assign_power_curve args]
         /\ new_calls w (snd (assign_power_curve weather_2 w))
            = [Call_assign_power_curve args].
Proof.
  intros w weather_1 weather_2 H.
  assert (Hti : turbulence_intensity_of weather_1
                = turbulence_intensity_of weather_2).
  { destruct H as [[H1 H2] | (H1 & H2 & Hmean)].
    - rewrite !turbulence_intensity_absent by assumption. reflexivity.
    - rewrite !turbulence_intensity_present by assumption.
      rewrite Hmean. reflexivity. }
  split.
  - unfold assign_power_curve. rewrite Hti. reflexivity.
  - exists (aggregator_args (config (self w)) weather_1).
    rewrite !assign_power_curve_new_calls.
    unfold aggregator_args. rewrite Hti. split; reflexivity.
Qed.

(** *** Further properties of [run_model] *)

(** X1: a run of [run_model] that raises leaves the model-chain object as
    it was; in particular [power_output] still holds what it held before
    the call. *)
Theorem run_model_failure_keeps_power_output :
  forall (w : World) (weather_df : WeatherSeries) (e : error),
    fst (run_model weather_df w) = Raise e ->
    self (snd (run_model weather_df w)) = self w
    /\ power_output (self (snd (run_model weather_df w)))
       = power_output (self w).
Proof.
  intros w weather_df e. rewrite run_model_result, run_model_self.
  destruct (trace_result _); [discriminate |]. auto.
Qed.

(** X2: a run of [run_model] that ends normally has aggregated a curve
    with the arguments [assign_power_curve] passes, has computed the mean
    hub height, has resolved wind speed and density on the plant that
    holds both, and stores in [power_output] what
    [calculate_power_output] returns on that plant for the wind speed
    (attenuated on the post-hoc path) and the density ([None] when
    skipped). *)
Theorem run_model_success :
  forall (w : World) (weather_df : WeatherSeries),
    fst (run_model weather_df w) = Ok tt ->
    let cfg := config (self w) in
    let w' := snd (run_model weather_df w) in
    exists c h hub speed density out,
      aggregate (aggregator_args cfg weather_df) (turbines (plant w)) = Ok c
      /\ layout_mean_hub_height (turbines (plant w)) = Ok h
      /\ plant w' = {| turbines := turbines (plant w);
                       plant_power_curve := Some c;
                       hub_height := Some h |}
      /\ wind_speed_hub cfg (plant w') weather_df = Ok hub
      /\ (if density_skipped cfg then density = None
          else exists d,
                 density_hub cfg (plant w') weather_df = Ok d
                 /\ density = Some d)
      /\ (if wind_speed_reduced cfg
          then reduce_wind_speed hub (py_str (wake_losses_model cfg)) = Ok speed
          else speed = hub)
      /\ calculate_power_output cfg (plant w') speed density = Ok out
      /\ power_output (self w') = Some out.
Proof.
  intros w weather_df Hok cfg w'. subst w'. revert Hok.
  rewrite run_model_result, run_model_plant, run_model_self. fold cfg.
  unfold run_trace, density_stage, wake_stage.
  destruct (aggregate _ _) as [c | e] eqn:Hc; [| discriminate].
  destruct (layout_mean_hub_height _) as [h | e] eqn:Hh; [| discriminate].
  destruct (wind_speed_hub _ _ _) as [hub | e] eqn:Hhub; [| discriminate].
  destruct (density_skipped cfg);
    [| destruct (density_hub _ _ _) as [d | e] eqn:Hd; [| discriminate]];
    (destruct (wind_speed_reduced cfg);
     [destruct (reduce_wind_speed _ _) as [speed | e] eqn:Hr;
      [| discriminate] |]);
    cbn [trace_result trace_plant returned];
    (destruct (calculate_power_output _ _ _ _) as [out | e] eqn:Hout;
     [| discriminate]);
    intros _; cbn [power_output];
    repeat eexists; eauto.
Qed.

(** X3: a run of [run_model] that ends normally has called each
    collaborator at most once and in the order of the source:
    [power_plant.assign_power_curve], [power_plant.mean_hub_height],
    [wind_speed_hub], then [density_hub] unless skipped, then
    [reduce_wind_speed] on the post-hoc path, then
    [calculate_power_output]. *)
Theorem run_model_call_sequence :
  forall (w : World) (weather_df : WeatherSeries),
    fst (run_model weather_df w) = Ok tt ->
    let cfg := config (self w) in
    exists hub speed density,
      new_calls w (snd (run_model weather_df w))
      = [Call_assign_power_curve (aggregator_args cfg weather_df);
         Call_mean_hub_height;
         Call_wind_speed_hub weather_df]
        ++ (if density_skipped cfg then [] else [Call_density_hub weather_df])
        ++ (if wind_speed_reduced cfg
            then [Call_reduce_wind_speed hub (py_str (wake_losses_model cfg))]
            else [])
        ++ [Call_calculate_power_output speed density].
Proof.
  intros w weather_df Hok cfg. revert Hok.
  rewrite run_model_result, run_model_new_calls. fold cfg.
  unfold run_trace, density_stage, wake_stage.
  destruct (aggregate _ _) as [c | e]; [| discriminate].
  destruct (layout_mean_hub_height _) as [h | e]; [| discriminate].
  destruct (wind_speed_hub _ _ _) as [hub | e]; [| discriminate].
  destruct (density_skipped cfg);
    [| destruct (density_hub _ _ _) as [d | e]; [| discriminate]];
    (destruct (wind_speed_reduced cfg);
     [destruct (reduce_wind_speed _ _) as [speed | e]; [| discriminate] |]);
    cbn [trace_result trace_calls returned]; intros _;
    exists hub; eexists; eexists; reflexivity.
Qed.

(** X4: when [assign_power_curve] raises, [run_model] raises the same
    exception and leaves exactly the world [assign_power_curve] leaves:
    nothing is caught and no further call is made. *)
Theorem run_model_propagates_assign_failure :
  forall (w : World) (weather_df : WeatherSeries) (e : error),
    fst (assign_power_curve weather_df w) = Raise e ->
    run_model weather_df w = (Raise e, snd (assign_power_curve weather_df w)).
Proof.
  intros w weather_df e H. unfold run_model. unfold bind at 1.
  destruct (assign_power_curve weather_df w) as [[u | e'] w1];
    cbn [fst snd] in *; [discriminate | congruence].
Qed.

(** X5: nothing is rolled back.  Once the aggregation and the mean hub
    height have succeeded, the plant holds the new power curve and the new
    hub height after [run_model], whether the run then ends normally or
    raises in a later step. *)
Theorem run_model_keeps_plant_updates :
  forall (w : World) (weather_df : WeatherSeries) (c : Curve) (h : num),
    aggregate (aggregator_args (config (self w)) weather_df)
              (turbines (plant w)) = Ok c ->
    layout_mean_hub_height (turbines (plant w)) = Ok h ->
    plant (snd (run_model weather_df w))
    = {| turbines := turbines (plant w);
         plant_power_curve := Some c;
         hub_height := Some h |}.
Proof.
  intros w weather_df c h Hc Hh. rewrite run_model_plant.
  unfold run_trace. rewrite Hc, Hh.
  unfold density_stage, wake_stage.
  destruct (wind_speed_hub _ _ _); [| reflexivity].
  destruct (density_skipped _); [| destruct (density_hub _ _ _)];
    try reflexivity;
    (destruct (wind_speed_reduced _);
     [destruct (reduce_wind_speed _ _) |]); reflexivity.
Qed.

(** X6: no collaborator is called after a failure.  In any run of
    [run_model], [mean_hub_height] is called only after the aggregation
    succeeded, [wind_speed_hub] only after the mean hub height was
    computed, [density_hub] and [reduce_wind_speed] only after
    [wind_speed_hub] returned, [reduce_wind_speed] moreover only after
    the density was skipped or resolved, and [calculate_power_output]
    only after [reduce_wind_speed], where due, returned its argument. *)
Theorem run_model_calls_follow_success :
  forall (w : World) (weather_df : WeatherSeries),
    let cfg := config (self w) in
    let w' := snd (run_model weather_df w) in
    let aggregated :=
      exists c, aggregate (aggregator_args cfg weather_df)
                          (turbines (plant w)) = Ok c in
    let located :=
      exists h, layout_mean_hub_height (turbines (plant w)) = Ok h in
    (In Call_mean_hub_height (new_calls w w') -> aggregated)
    /\ (forall x, In (Call_wind_speed_hub x) (new_calls w w') ->
          x = weather_df /\ aggregated /\ located)
    /\ (forall x, In (Call_density_hub x) (new_calls w w') ->
          x = weather_df
          /\ exists hub, wind_speed_hub cfg (plant w') weather_df = Ok hub)
    /\ (forall hub n, In (Call_reduce_wind_speed hub n) (new_calls w w') ->
          wind_speed_hub cfg (plant w') weather_df = Ok hub
          /\ (density_skipped cfg = true
              \/ exists d, density_hub cfg (plant w') weather_df = Ok d))
    /\ (forall speed density,
          In (Call_calculate_power_output speed density) (new_calls w w') ->
          wind_speed_reduced cfg = false
          \/ exists hub,
               reduce_wind_speed hub (py_str (wake_losses_model cfg))
               = Ok speed).
Proof.
  intros w weather_df cfg w' aggregated located. subst w' aggregated located.
  rewrite run_model_new_calls, run_model_plant. fold cfg.
  repeat split; intros;
    match goal with
    | H : In _ _ |- _ => revert H
    end;
    split_trace; intuition; try discriminate;
    try (match goal with
         | H : Call_wind_speed_hub _ = Call_wind_speed_hub _ |- _ =>
             inversion H; subst; clear H
         end);
    try same_call; eauto.
Qed.

(** *** Further properties of [assign_power_curve] and of construction *)

Lemma assign_power_curve_turbines (w : World) (weather_df : WeatherSeries) :
  turbines (plant (snd (assign_power_curve weather_df w)))
  = turbines (plant w).
Proof.
  destruct (assign_power_curve_outcome w weather_df) as [msgs ->].
  destruct (aggregate _ _); reflexivity.
Qed.

Lemma run_model_first_call (w : World) (weather_df : WeatherSeries) :
  exists rest,
    new_calls w (snd (run_model weather_df w))
    = Call_assign_power_curve (aggregator_args (config (self w)) weather_df)
      :: rest.
Proof.
  rewrite run_model_new_calls. split_trace; eexists; reflexivity.
Qed.

(** X7: whatever sequence of [assign_power_curve] and [run_model] calls
    lies between construction and a call of [assign_power_curve], that
    call hands to [power_plant.assign_power_curve] the very [smoothing],
    [block_width], [standard_deviation_method] and [smoothing_order]
    given at construction, and as wake-loss mode either the constructed
    one or [None]; and [run_model] begins with the same call. *)
Theorem aggregator_gets_constructed_settings :
  forall (power_plant : PowerPlant) (wl : option string) (sm : option bool)
         (bw : num) (sdm so : string) (kwargs : ModelChainOptions)
         (history : list MethodCall) (weather_df : WeatherSeries),
    let w := after (__init__ power_plant wl sm bw sdm so kwargs) history in
    exists args,
      new_calls w (snd (assign_power_curve weather_df w))
      = [Call_assign_power_curve args]
      /\ (exists rest,
            new_calls w (snd (run_model weather_df w))
            = Call_assign_power_curve args :: rest)
      /\ arg_smoothing args = sm
      /\ arg_block_width args = bw
      /\ arg_standard_deviation_method args = sdm
      /\ arg_smoothing_order args = so
      /\ (arg_wake_losses_model args = wl
          \/ arg_wake_losses_model args = None).
Proof.
  intros power_plant wl sm bw sdm so kwargs history weather_df w.
  exists (aggregator_args (config (self w)) weather_df).
  rewrite assign_power_curve_new_calls.
  destruct (after_same_settings history
              (__init__ power_plant wl sm bw sdm so kwargs)) as [Hcfg _].
  fold w in Hcfg.
  split; [reflexivity |]. split; [apply run_model_first_call |].
  unfold aggregator_args, wake_losses_model_to_power_curve.
  rewrite Hcfg. cbn.
  repeat split. destruct (_ || _); auto.
Qed.

Lemma wind_speed_reduced_post_hoc (cfg : ModelChainConfig) :
  wind_speed_reduced cfg = true ->
  exists name, post_hoc_path (wake_losses_model cfg) name.
Proof.
  unfold wind_speed_reduced, post_hoc_path.
  destruct (wake_losses_model cfg) as [name |]; cbn.
  - rewrite andb_true_r, andb_true_iff, !negb_true_iff.
    intros [H1 H2]. apply eqb_false_neq in H1, H2. eauto.
  - rewrite ?andb_false_r. discriminate.
Qed.

(** X8: wake losses are never applied twice.  In any run of [run_model]
    that reaches [reduce_wind_speed], the aggregator was given [None] as
    wake-loss mode, and the name handed to [reduce_wind_speed] is the
    configured [wake_losses_model], which is neither of the two embedded
    modes. *)
Theorem wake_losses_applied_once :
  forall (w : World) (weather_df : WeatherSeries) (args : AggregatorArgs)
         (hub : Series) (n : string),
    In (Call_assign_power_curve args)
       (new_calls w (snd (run_model weather_df w))) ->
    In (Call_reduce_wind_speed hub n)
       (new_calls w (snd (run_model weather_df w))) ->
    arg_wake_losses_model args = None
    /\ post_hoc_path (wake_losses_model (config (self w))) n.
Proof.
  intros w weather_df args hub n. rewrite run_model_new_calls.
  destruct (wind_speed_reduced (config (self w))) eqn:Hred.
  - destruct (wind_speed_reduced_post_hoc _ Hred) as [name Hpath].
    destruct (post_hoc_path_reduced _ _ Hpath) as (_ & Hmode & Hname).
    split_trace; intuition; try discriminate; try congruence;
      try same_call;
      try match goal with
          | H : Call_assign_power_curve _ = Call_assign_power_curve _ |- _ =>
              inversion H; subst; clear H
          end;
      try exact Hmode; try congruence.
  - split_trace; intuition; try discriminate; congruence.
Qed.

(** X9: a chain constructed with every keyword argument left out takes
    the post-hoc path with the curve ['dena_mean']: the aggregator is
    called with wake-loss mode [None], [smoothing=False], the block width
    that the literal [0.5] denotes and the default method and order; [reduce_wind_speed] is only
    ever called with ['dena_mean']; and every wind speed given to
    [calculate_power_output] is a result of [reduce_wind_speed] for
    ['dena_mean']. *)
Theorem default_construction_uses_dena_mean {L : Literals} :
  forall (power_plant : PowerPlant)
         (kwargs : ModelChainOptions) (weather_df : WeatherSeries),
    let w := construct power_plant None None None None None kwargs in
    new_calls w (snd (assign_power_curve weather_df w))
    = [Call_assign_power_curve
         {| arg_wake_losses_model := None;
            arg_smoothing := Some false;
            arg_block_width := float_literal (5 # 10);
            arg_standard_deviation_method := "turbulence_intensity";
            arg_smoothing_order := "wind_farm_power_curves";
            arg_turbulence_intensity := turbulence_intensity_of weather_df |}]
    /\ (forall hub n,
          In (Call_reduce_wind_speed hub n)
             (new_calls w (snd (run_model weather_df w))) ->
          n = "dena_mean")
    /\ (forall speed density,
          In (Call_calculate_power_output speed density)
             (new_calls w (snd (run_model weather_df w))) ->
          exists hub,
            In (Call_reduce_wind_speed hub "dena_mean")
               (new_calls w (snd (run_model weather_df w)))
            /\ reduce_wind_speed hub "dena_mean" = Ok speed).
Proof.
  intros power_plant kwargs weather_df w.
  rewrite assign_power_curve_new_calls, run_model_new_calls.
  split; [reflexivity |].
  split.
  - intros hub n. unfold run_trace, density_stage, wake_stage.
    change (wind_speed_reduced (config (self w))) with true.
    change (py_str (wake_losses_model (config (self w)))) with "dena_mean".
    cbn iota.
    split_trace; intuition; try discriminate; same_call; reflexivity.
  - intros speed density. unfold run_trace, density_stage, wake_stage.
    change (wind_speed_reduced (config (self w))) with true.
    change (py_str (wake_losses_model (config (self w)))) with "dena_mean".
    cbn iota.
    split_trace; intuition; try discriminate; same_call; eauto 10.
Qed.

(** X10: [assign_power_curve] called before [run_model], on any weather,
    changes neither how [run_model] ends nor the model-chain object it
    leaves: the aggregation is redone from the turbines with the weather
    of the run. *)
Theorem assign_power_curve_before_run_model :
  forall (w : World) (earlier weather_df : WeatherSeries),
    let w1 := snd (assign_power_curve earlier w) in
    fst (run_model weather_df w1) = fst (run_model weather_df w)
    /\ self (snd (run_model weather_df w1))
       = self (snd (run_model weather_df w)).
Proof.
  intros w earlier weather_df w1.
  assert (Hself : self w1 = self w) by apply assign_power_curve_self.
  assert (Hfleet : turbines (plant w1) = turbines (plant w))
    by apply assign_power_curve_turbines.
  rewrite !run_model_result, !run_model_self, Hself.
  rewrite (run_trace_result_fleet _ _ _ _ Hfleet). auto.
Qed.

(** The messages [assign_power_curve] gives to [logging.debug]. *)
Lemma assign_power_curve_debug_log (w : World) (weather_df : WeatherSeries) :
  let cfg := config (self w) in
  debug_log (snd (assign_power_curve weather_df w))
  = debug_log w
    ++ [if py_eq (wake_losses_model cfg) "power_efficiency_curve"
           || py_eq (wake_losses_model cfg) "constant_efficiency"
           || is_None (wake_losses_model cfg)
        then if is_None (wake_losses_model cfg)
             then "Wake losses in wind farms are not considered."
             else ("Wake losses considered with "
                   ++ py_str (wake_losses_model cfg) ++ ".")%string
        else (("Wake losses considered by "
               ++ py_str (wake_losses_model cfg) ++ " wind ")
              ++ "efficiency curve.")%string]
    ++ match aggregate (aggregator_args cfg weather_df) (turbines (plant w)) with
       | Ok _ =>
           [if is_None (smoothing cfg)
            then "Aggregated power curve not smoothed."
            else ("Aggregated power curve smoothed by method: "
                  ++ standard_deviation_method cfg)%string]
       | Raise _ => []
       end.
Proof.
  destruct w as [[cfg pc po] p cs msgs].
  unfold aggregator_args, wake_losses_model_to_power_curve,
    assign_power_curve, choose_wake_losses_model, plant_assign_power_curve,
    set_plant, record_call, logging_debug, get_config, get_plant, lift,
    bind, ret.
  cbn [self config plant calls debug_log fst snd].
  destruct (py_eq (wake_losses_model cfg) "power_efficiency_curve"
            || py_eq (wake_losses_model cfg) "constant_efficiency"
            || is_None (wake_losses_model cfg));
    [destruct (is_None (wake_losses_model cfg)) |];
    cbn [self config plant calls debug_log fst snd];
    (destruct (aggregate _ (turbines p)); [destruct (is_None (smoothing cfg)) |]);
    cbn [self config plant calls debug_log fst snd];
    rewrite <- ?app_assoc; reflexivity.
Qed.

(** X11: the message about smoothing.  When [assign_power_curve] ends
    normally, the last message it gave to [logging.debug] is 'Aggregated
    power curve not smoothed.' only for [smoothing=None]; for
    [smoothing=False] as for [smoothing=True] it is 'Aggregated power curve
    smoothed by method: ' followed by [standard_deviation_method]. *)
Theorem smoothing_message_logged :
  forall (w : World) (weather_df : WeatherSeries),
    fst (assign_power_curve weather_df w) = Ok tt ->
    last (debug_log (snd (assign_power_curve weather_df w))) ""
    = match smoothing (config (self w)) with
      | None => "Aggregated power curve not smoothed."
      | Some _ => ("Aggregated power curve smoothed by method: "
                   ++ standard_deviation_method (config (self w)))%string
      end.
Proof.
  intros w weather_df.
  rewrite assign_power_curve_result, assign_power_curve_debug_log.
  destruct (aggregate _ _); [intros _ | discriminate].
  rewrite app_assoc, last_last.
  destruct (smoothing (config (self w))); reflexivity.
Qed.

Lemma string_append_assoc (a b c : string) :
  ((a ++ b) ++ c)%string = (a ++ b ++ c)%string.
Proof. induction a as [| ch a IH]; cbn; [reflexivity | rewrite IH; reflexivity]. Qed.

(** X12: the message about wake losses.  [assign_power_curve] gives it to
    [logging.debug] before it calls the aggregator, so it is logged also
    when that call raises, and then it is the only message: 'Wake losses
    in wind farms are not considered.' for [None], 'Wake losses considered
    with NAME.' for the two embedded modes, 'Wake losses considered by
    NAME wind efficiency curve.' for any other name. *)
Theorem wake_losses_message_logged :
  forall (w : World) (weather_df : WeatherSeries),
    exists later,
      debug_log (snd (assign_power_curve weather_df w))
      = debug_log w
        ++ match wake_losses_model (config (self w)) with
           | None => "Wake losses in wind farms are not considered."
           | Some name =>
               if String.eqb name "power_efficiency_curve"
                  || String.eqb name "constant_efficiency"
               then ("Wake losses considered with " ++ name ++ ".")%string
               else ("Wake losses considered by " ++ name
                     ++ " wind efficiency curve.")%string
           end :: later
      /\ (forall e, fst (assign_power_curve weather_df w) = Raise e ->
          later = [])
      /\ (fst (assign_power_curve weather_df w) = Ok tt ->
          List.length later = 1%nat).
Proof.
  intros w weather_df.
  rewrite assign_power_curve_result, assign_power_curve_debug_log.
  eexists. split; [| split].
  - cbn [app]. do 2 f_equal.
    destruct (wake_losses_model (config (self w))) as [name |];
      cbn [py_eq is_None py_str]; [| reflexivity].
    rewrite orb_false_r.
    destruct (_ || _); [reflexivity |].
    rewrite string_append_assoc. f_equal.
    rewrite string_append_assoc. reflexivity.
  - intros e. destruct (aggregate _ _); [discriminate | reflexivity].
  - destruct (aggregate _ _); [reflexivity | discriminate].
Qed.

End Properties.

(** ** The properties on the small plant *)

(** C5: two runs of [run_model] on one object, over different weather.
    Both end normally; each stores its own series in [power_output], the
    second replacing the first; the plant holds the aggregated curve
    after each; but the [power_curve] attribute of the model chain is
    [None] after both, as line 152 left it. *)
Theorem run_model_leaves_power_curve_attribute_unset :
  let w0 := Example.chain None "power_curve" false in
  let run := @run_model Example.domain Example.collaborators in
  let w1 := snd (run Example.weather w0) in
  let w2 := snd (run Example.calm w1) in
  fst (run Example.weather w0) = Ok tt
  /\ power_output (self w1) = Some [(0%nat, 400000%Q); (1%nat, 1500000%Q)]
  /\ plant_power_curve (plant w1) = Some (snd (turbines Example.farm))
  /\ power_curve (self w1) = None
  /\ fst (run Example.calm w1) = Ok tt
  /\ power_output (self w2) = Some [(0%nat, 0%Q)]
  /\ plant_power_curve (plant w2) = Some (snd (turbines Example.farm))
  /\ power_curve (self w2) = None.
Proof. vm_compute. repeat split. Qed.


(** C2 on the small plant: mode ['dena_mean'], every step returns. *)
Lemma post_hoc_path_mode_withheld_wind_speed_attenuated_witness :
  let w := Example.chain (Some "dena_mean") "power_curve" false in
  let run := @run_model _ Example.collaborators Example.weather in
  let hub : @Series Example.domain := [(0%nat, 8%Q); (1%nat, 10%Q)] in
  let speed : @Series Example.domain := [(0%nat, 6%Q); (1%nat, 15 # 2)] in
  post_hoc_path (wake_losses_model (config (self w))) "dena_mean"
  /\ @hub_resolved _ Example.collaborators w Example.weather
       (snd (turbines Example.farm)) 100%Q hub
  /\ @density_resolved _ Example.collaborators (config (self w))
       (updated_plant (plant w) (snd (turbines Example.farm)) 100%Q)
       Example.weather None
  /\ In (Call_reduce_wind_speed hub "dena_mean") (new_calls w (snd (run w)))
  /\ In (Call_calculate_power_output speed None) (new_calls w (snd (run w)))
  /\ power_output (self (snd (run w)))
     = Some [(0%nat, 400000%Q); (1%nat, 400000%Q)].
Proof.
  intros w run hub speed.
  assert (H : post_hoc_path (wake_losses_model (config (self w))) "dena_mean")
    by (split; [reflexivity | split; intros E; discriminate E]).
  assert (Hhub : @hub_resolved _ Example.collaborators w Example.weather
                   (snd (turbines Example.farm)) 100%Q hub)
    by (split; [| split]; vm_compute; reflexivity).
  assert (Hd : @density_resolved _ Example.collaborators (config (self w))
                 (updated_plant (plant w) (snd (turbines Example.farm)) 100%Q)
                 Example.weather None)
    by (vm_compute; reflexivity).
  destruct (proj2 (proj2 (proj2
              (@post_hoc_path_mode_withheld_wind_speed_attenuated
                 _ Example.collaborators w Example.weather "dena_mean" H)))
              _ _ _ _ Hhub Hd) as [Hreduce Hcurve].
  destruct (Hcurve Example.dena_mean eq_refl) as (Hcalls & _ & Hout).
  split; [exact H |]. split; [exact Hhub |]. split; [exact Hd |].
  split; [exact Hreduce |]. split.
  - unfold run. rewrite Hcalls. apply in_or_app. right. right. left.
    reflexivity.
  - exact (Hout _ eq_refl).
Defined.

(** C3 on the small plant: a frame without turbulence intensity. *)
Lemma turbulence_intensity_argument_witness :
  let w := Example.chain (Some "dena_mean") "power_curve" false in
  ~ In "turbulence_intensity"
       (get_level_values_0 (D := Example.domain) Example.weather)
  /\ exists args,
       new_calls w
         (snd (@assign_power_curve _ Example.collaborators Example.weather w))
       = [Call_assign_power_curve args]
       /\ arg_turbulence_intensity args = None.
Proof.
  intros w.
  assert (H : ~ In "turbulence_intensity"
                   (get_level_values_0 (D := Example.domain) Example.weather))
    by (simpl; intuition discriminate).
  split; [exact H |].
  destruct (@turbulence_intensity_argument
              _ Example.collaborators w Example.weather)
    as (args & Hcalls & _ & Habsent & _).
  exists args. split; [exact Hcalls | exact (Habsent H)].
Defined.

(** C4 on the small plant: the density-corrected power-curve model, where
    the density is resolved and handed on. *)
Lemma density_hub_skipped_iff_plain_power_curve_witness :
  let w := Example.chain None "power_curve" true in
  let run := @run_model _ Example.collaborators Example.weather in
  let hub : @Series Example.domain := [(0%nat, 8%Q); (1%nat, 10%Q)] in
  let dens : @Series Example.domain :=
    [(0%nat, 1225 # 1000); (1%nat, 1225 # 1000)] in
  ~ (power_output_model (config (self w)) = "power_curve"
     /\ density_correction (config (self w)) = false)
  /\ @hub_resolved _ Example.collaborators w Example.weather
       (snd (turbines Example.farm)) 100%Q hub
  /\ In (Call_density_hub Example.weather) (new_calls w (snd (run w)))
  /\ In (Call_calculate_power_output hub (Some dens))
        (new_calls w (snd (run w))).
Proof.
  intros w run hub dens.
  assert (H : ~ (power_output_model (config (self w)) = "power_curve"
                 /\ density_correction (config (self w)) = false))
    by (intros [_ E]; discriminate E).
  assert (Hhub : @hub_resolved _ Example.collaborators w Example.weather
                   (snd (turbines Example.farm)) 100%Q hub)
    by (split; [| split]; vm_compute; reflexivity).
  destruct (proj2 (proj2 (proj2
              (@density_hub_skipped_iff_plain_power_curve
                 _ Example.collaborators w Example.weather)))
              _ _ _ Hhub) as [Hcalled Hpassed].
  split; [exact H |]. split; [exact Hhub |]. split; [exact (Hcalled H) |].
  exact (proj2 (Hpassed hub eq_refl) H dens eq_refl).
Defined.

(** C6 on the small plant: between the runs the plant loses its curve and
    hub height and the call record is emptied. *)
Lemma run_model_twice_same_power_output_witness :
  let w := Example.chain (Some "dena_mean") "power_curve" false in
  let w1 := snd (@run_model _ Example.collaborators Example.weather w) in
  let w' := {| self := self w1; plant := Example.farm;
               calls := []; debug_log := [] |} in
  self w' = self w1
  /\ turbines (plant w') = turbines (plant w1)
  /\ power_output
       (self (snd (@run_model _ Example.collaborators Example.weather w')))
     = power_output (self w1).
Proof.
  intros w w1 w'.
  assert (H1 : self w' = self w1) by reflexivity.
  assert (H2 : turbines (plant w') = turbines (plant w1)) by reflexivity.
  split; [exact H1 | split; [exact H2 |]].
  exact (proj2 (proj2
    (@run_model_twice_same_power_output
       _ Example.collaborators w Example.weather) w' H1 H2)).
Defined.



(** C8 on the small plant: a name the catalogue does not have; every
    step before the lookup returns. *)
Lemma unknown_curve_name_fails_at_reduce_wind_speed_witness :
  let w := Example.chain (Some "no_such_curve") "power_curve" false in
  let run := @run_model _ Example.collaborators Example.weather in
  let hub : @Series Example.domain := [(0%nat, 8%Q); (1%nat, 10%Q)] in
  post_hoc_path (wake_losses_model (config (self w))) "no_such_curve"
  /\ @get_wind_efficiency_curve _ Example.collaborators "no_such_curve" = None
  /\ @hub_resolved _ Example.collaborators w Example.weather
       (snd (turbines Example.farm)) 100%Q hub
  /\ fst (run w) = Raise (NameNotFound "no_such_curve")
  /\ new_calls w (snd (run w))
     = [Call_assign_power_curve
          (@aggregator_args _ Example.collaborators (config (self w))
             Example.weather);
        Call_mean_hub_height;
        Call_wind_speed_hub Example.weather;
        Call_reduce_wind_speed hub "no_such_curve"].
Proof.
  intros w run hub.
  assert (H : post_hoc_path (wake_losses_model (config (self w)))
                "no_such_curve")
    by (split; [reflexivity | split; intros E; discriminate E]).
  assert (Hc : @get_wind_efficiency_curve _ Example.collaborators
                 "no_such_curve" = None) by reflexivity.
  assert (Hhub : @hub_resolved _ Example.collaborators w Example.weather
                   (snd (turbines Example.farm)) 100%Q hub)
    by (split; [| split]; vm_compute; reflexivity).
  assert (Hd : @density_resolved _ Example.collaborators (config (self w))
                 (updated_plant (plant w) (snd (turbines Example.farm)) 100%Q)
                 Example.weather None)
    by (vm_compute; reflexivity).
  split; [exact H |]. split; [exact Hc |]. split; [exact Hhub |].
  exact (proj1 (proj2 (proj2 (proj2 (proj2 (proj2 (proj2 (proj2
    (@unknown_curve_name_fails_at_reduce_wind_speed
       _ Example.collaborators w Example.weather "no_such_curve" H Hc))))))))
    _ _ _ _ Hhub Hd).
Defined.

(** C10 on the small plant: two frames with different wind speeds, heights
    and lengths, and the same mean turbulence intensity. *)
Lemma assign_power_curve_reads_only_turbulence_intensity_witness :
  let w := Example.chain (Some "dena_mean") "power_curve" false in
  (In "turbulence_intensity"
      (get_level_values_0 (D := Example.domain) Example.gusty)
   /\ In "turbulence_intensity"
         (get_level_values_0 (D := Example.domain) Example.calm)
   /\ @np_mean _ Example.collaborators
        (variable_values "turbulence_intensity" Example.gusty)
      = @np_mean _ Example.collaborators
          (variable_values "turbulence_intensity" Example.calm))
  /\ @assign_power_curve _ Example.collaborators Example.gusty w
     = @assign_power_curve _ Example.collaborators Example.calm w.
Proof.
  intros w.
  assert (H : In "turbulence_intensity"
                 (get_level_values_0 (D := Example.domain) Example.gusty)
              /\ In "turbulence_intensity"
                    (get_level_values_0 (D := Example.domain) Example.calm)
              /\ @np_mean _ Example.collaborators
                   (variable_values "turbulence_intensity" Example.gusty)
                 = @np_mean _ Example.collaborators
                     (variable_values "turbulence_intensity" Example.calm))
    by (split; [simpl; auto | split; [simpl; auto | reflexivity]]).
  split; [exact H |].
  exact (proj1
    (@assign_power_curve_reads_only_turbulence_intensity
       _ Example.collaborators w Example.gusty Example.calm
       (or_intror H))).
Defined.

(** *** The further properties on the small plant *)

(** X1 on the small plant: the run fails at the curve lookup. *)
Lemma run_model_failure_keeps_power_output_witness :
  let w := Example.chain (Some "no_such_curve") "power_curve" false in
  fst (@run_model _ Example.collaborators Example.weather w)
  = Raise (NameNotFound "no_such_curve")
  /\ self (snd (@run_model _ Example.collaborators Example.weather w))
     = self w.
Proof.
  intros w.
  assert (H : fst (@run_model _ Example.collaborators Example.weather w)
              = Raise (NameNotFound "no_such_curve")) by reflexivity.
  split; [exact H |].
  exact (proj1 (@run_model_failure_keeps_power_output
                   _ Example.collaborators w Example.weather _ H)).
Defined.

(** X2 on the small plant. *)
Lemma run_model_success_witness :
  let w := Example.chain (Some "dena_mean") "power_curve" false in
  fst (@run_model _ Example.collaborators Example.weather w) = Ok tt
  /\ exists out,
       power_output
         (self (snd (@run_model _ Example.collaborators Example.weather w)))
       = Some out.
Proof.
  intros w.
  assert (H : fst (@run_model _ Example.collaborators Example.weather w)
              = Ok tt) by reflexivity.
  split; [exact H |].
  destruct (@run_model_success _ Example.collaborators w Example.weather H)
    as (c & h & hub & speed & density & out & _ & _ & _ & _ & _ & _ & _ & Hout).
  exists out. exact Hout.
Defined.

(** X3 on the small plant: density resolved, wind speed reduced. *)
Lemma run_model_call_sequence_witness :
  let w := Example.chain (Some "dena_mean") "power_curve" true in
  fst (@run_model _ Example.collaborators Example.weather w) = Ok tt
  /\ exists hub speed density,
       new_calls w (snd (@run_model _ Example.collaborators Example.weather w))
       = [Call_assign_power_curve
            (@aggregator_args _ Example.collaborators (config (self w))
               Example.weather);
          Call_mean_hub_height;
          Call_wind_speed_hub Example.weather;
          Call_density_hub Example.weather;
          Call_reduce_wind_speed hub "dena_mean";
          Call_calculate_power_output speed density].
Proof.
  intros w.
  assert (H : fst (@run_model _ Example.collaborators Example.weather w)
              = Ok tt) by reflexivity.
  split; [exact H |].
  exact (@run_model_call_sequence _ Example.collaborators w Example.weather H).
Defined.

(** X4 on the small plant: smoothing without turbulence intensity. *)
Lemma run_model_propagates_assign_failure_witness :
  let w := Example.smoothed_chain in
  let e := Native (D := Example.domain) "ValueError: turbulence intensity" in
  fst (@assign_power_curve _ Example.collaborators Example.weather w)
  = Raise e
  /\ @run_model _ Example.collaborators Example.weather w
     = (Raise e,
        snd (@assign_power_curve _ Example.collaborators Example.weather w)).
Proof.
  intros w e.
  assert (H : fst (@assign_power_curve _ Example.collaborators
                     Example.weather w) = Raise e) by reflexivity.
  split; [exact H |].
  exact (@run_model_propagates_assign_failure
           _ Example.collaborators w Example.weather e H).
Defined.

(** X5 on the small plant: the run fails at the curve lookup, the plant
    has its curve and hub height all the same. *)
Lemma run_model_keeps_plant_updates_witness :
  let w := Example.chain (Some "no_such_curve") "power_curve" false in
  let c := snd (turbines Example.farm) in
  @aggregate _ Example.collaborators
    (@aggregator_args _ Example.collaborators (config (self w))
       Example.weather)
    (turbines (plant w)) = Ok c
  /\ @layout_mean_hub_height _ Example.collaborators (turbines (plant w))
     = Ok 100%Q
  /\ plant (snd (@run_model _ Example.collaborators Example.weather w))
     = @Build_PowerPlant Example.domain (turbines Example.farm)
         (Some c) (Some 100%Q).
Proof.
  intros w c.
  assert (H1 : @aggregate _ Example.collaborators
                 (@aggregator_args _ Example.collaborators (config (self w))
                    Example.weather)
                 (turbines (plant w)) = Ok c) by reflexivity.
  assert (H2 : @layout_mean_hub_height _ Example.collaborators
                 (turbines (plant w)) = Ok 100%Q) by reflexivity.
  split; [exact H1 | split; [exact H2 |]].
  exact (@run_model_keeps_plant_updates
           _ Example.collaborators w Example.weather c 100%Q H1 H2).
Defined.

(** X6 on the small plant: the mean hub height is asked for. *)
Lemma run_model_calls_follow_success_witness :
  let w := Example.chain (Some "dena_mean") "power_curve" false in
  In Call_mean_hub_height
     (new_calls w (snd (@run_model _ Example.collaborators Example.weather w)))
  /\ exists c,
       @aggregate _ Example.collaborators
         (@aggregator_args _ Example.collaborators (config (self w))
            Example.weather)
         (turbines (plant w)) = Ok c.
Proof.
  intros w.
  assert (H : In Call_mean_hub_height
                 (new_calls w
                    (snd (@run_model _ Example.collaborators
                            Example.weather w))))
    by (vm_compute; right; left; reflexivity).
  split; [exact H |].
  exact (proj1 (@run_model_calls_follow_success
                   _ Example.collaborators w Example.weather) H).
Defined.

(** X8 on the small plant: the default curve. *)
Lemma wake_losses_applied_once_witness :
  let w := Example.chain (Some "dena_mean") "power_curve" false in
  let args :=
    @aggregator_args _ Example.collaborators (config (self w))
      Example.weather in
  let hub : @Series Example.domain := [(0%nat, 8%Q); (1%nat, 10%Q)] in
  In (Call_assign_power_curve args)
     (new_calls w (snd (@run_model _ Example.collaborators Example.weather w)))
  /\ In (Call_reduce_wind_speed hub "dena_mean")
        (new_calls w
           (snd (@run_model _ Example.collaborators Example.weather w)))
  /\ arg_wake_losses_model args = None.
Proof.
  intros w args hub.
  assert (H1 : In (Call_assign_power_curve args)
                  (new_calls w
                     (snd (@run_model _ Example.collaborators
                             Example.weather w))))
    by (vm_compute; left; reflexivity).
  assert (H2 : In (Call_reduce_wind_speed hub "dena_mean")
                  (new_calls w
                     (snd (@run_model _ Example.collaborators
                             Example.weather w))))
    by (vm_compute; right; right; right; left; reflexivity).
  split; [exact H1 | split; [exact H2 |]].
  exact (proj1 (@wake_losses_applied_once
                   _ Example.collaborators w Example.weather args hub
                   "dena_mean" H1 H2)).
Defined.

(** X9 on the small plant: the wind speed evaluated by a default chain
    comes out of [reduce_wind_speed] for ['dena_mean']. *)
Lemma default_construction_uses_dena_mean_witness :
  let w := @construct Example.domain Example.literals Example.farm
             None None None None None (Example.options "power_curve" false) in
  let run := @run_model _ Example.collaborators Example.weather in
  let speed : @Series Example.domain := [(0%nat, 6%Q); (1%nat, 15 # 2)] in
  In (Call_calculate_power_output speed None) (new_calls w (snd (run w)))
  /\ exists hub,
       In (Call_reduce_wind_speed hub "dena_mean") (new_calls w (snd (run w)))
       /\ @reduce_wind_speed _ Example.collaborators hub "dena_mean"
          = Ok speed.
Proof.
  intros w run speed.
  assert (H : In (Call_calculate_power_output speed None)
                 (new_calls w (snd (run w))))
    by (vm_compute; right; right; right; right; left; reflexivity).
  split; [exact H |].
  exact (proj2 (proj2 (@default_construction_uses_dena_mean
                         _ Example.collaborators Example.literals
                         Example.farm (Example.options "power_curve" false)
                         Example.weather)) speed None H).
Defined.

(** X11 on the small plant: [smoothing=False]. *)
Lemma smoothing_message_logged_witness :
  let w := Example.chain (Some "dena_mean") "power_curve" false in
  fst (@assign_power_curve _ Example.collaborators Example.weather w) = Ok tt
  /\ last (debug_log
             (snd (@assign_power_curve _ Example.collaborators
                     Example.weather w))) ""
     = "Aggregated power curve smoothed by method: turbulence_intensity".
Proof.
  intros w.
  assert (H : fst (@assign_power_curve _ Example.collaborators
                     Example.weather w) = Ok tt) by reflexivity.
  split; [exact H |].
  exact (@smoothing_message_logged
           _ Example.collaborators w Example.weather H).
Defined.

(** X12 on the small plant: the aggregation fails, one message. *)
Lemma wake_losses_message_logged_witness :
  let w := Example.smoothed_chain in
  let e := Native (D := Example.domain) "ValueError: turbulence intensity" in
  fst (@assign_power_curve _ Example.collaborators Example.weather w)
  = Raise e
  /\ debug_log
       (snd (@assign_power_curve _ Example.collaborators Example.weather w))
     = ["Wake losses in wind farms are not considered."].
Proof.
  intros w e.
  assert (H : fst (@assign_power_curve _ Example.collaborators
                     Example.weather w) = Raise e) by reflexivity.
  split; [exact H |].
  destruct (@wake_losses_message_logged
              _ Example.collaborators w Example.weather)
    as (later & Hlog & Hraise & _).
  rewrite Hlog, (Hraise e H). reflexivity.
Defined.
